(** * Streaming transcription manager: a shallow embedding of [app.py]

    The development models the [TranscriptionManager] class of [app.py]:
    the message handler that merges partial and final transcript turns,
    the audio buffer that is written to a WAV file on close, and the
    start of a session.  Python values, exceptions, [print] output and
    calls to the outside world (threads, the audio device, the socket and
    the file system) are made explicit. *)

From Stdlib Require Import String Ascii List Bool ZArith Floats.
From Stdlib Require Import Strings.Byte.
Import ListNotations.
Open Scope string_scope.

Set Warnings "-register-all".

(** ** Python values

    [json.loads] yields [None], booleans, integers, floats, strings, lists
    and dictionaries with string keys.  A dictionary is kept as the list of
    its items, each key once; [dict.get] looks a key up in it. *)
Module Py.

Inductive value : Type :=
| VNone
| VBool (b : bool)
| VInt (z : Z)
| VFloat (f : float)
| VStr (s : string)
| VList (l : list value)
| VDict (items : list (string * value)).

(** [bool(v)] *)
Definition truthy (v : value) : bool :=
  match v with
  | VNone => false
  | VBool b => b
  | VInt z => negb (Z.eqb z 0)
  | VFloat f => negb (PrimFloat.eqb f 0%float)
  | VStr s => negb (String.eqb s "")
  | VList l => match l with [] => false | _ :: _ => true end
  | VDict d => match d with [] => false | _ :: _ => true end
  end.

(** [a and b] *)
Definition and_ (a b : value) : value := if truthy a then b else a.

(** [v == "..."] for a string literal on the right. *)
Definition eq_str (v : value) (lit : string) : bool :=
  match v with
  | VStr s => String.eqb s lit
  | _ => false
  end.

Fixpoint lookup (key : string) (items : list (string * value)) : option value :=
  match items with
  | [] => None
  | (k, v) :: rest => if String.eqb k key then Some v else lookup key rest
  end.

(** [d.get(key, default)] on the items of a dictionary [d]. *)
Definition get (items : list (string * value)) (key : string) (default : value) : value :=
  match lookup key items with
  | Some v => v
  | None => default
  end.

Definition is_str (v : value) : bool :=
  match v with
  | VStr _ => true
  | _ => false
  end.

Inductive exception : Type :=
| JSONDecodeError (msg : string)
| AttributeError (obj : value) (attr : string)
| TypeError_concat (rhs : value)
| Exception_ (text : string).

End Py.
Import Py.

(** ** The world outside the manager *)

Definition bytes := list byte.

(** The outcome of [json.loads(message)]. *)
Inductive loads_result : Type :=
| Decoded (data : value)
| DecodeError (msg : string).

(** The outcome of a call into a library that may raise; a failure is kept
    as the text [str(e)] of the exception. *)
Inductive outcome (A : Type) : Type :=
| Ok (a : A)
| Failed (msg : string).
Arguments Ok {A} a.
Arguments Failed {A} msg.

Inductive thread_target : Type :=
| stream_audio_target
| ws_run_forever_target.

(** What [print] writes. *)
Inductive line : Type :=
| WebSocketOpened
| StartingAudioStreaming
| ErrorStreamingAudio (e : exception)
| AudioStreamingStopped
| SessionBegan (session_id : value)
| SessionTerminated
| ErrorHandlingMessage (e : exception)
| WebSocketDisconnected
| AudioSavedTo (filename : string)
| ErrorSavingWav (e : exception).

(** Calls that leave the manager, in the order they are made. *)
Inductive event : Type :=
| Print (l : line)
| PyAudioCreated
| StreamOpenCalled
| StreamRead (frames : Z)
| WsSendBinary (data : bytes)
| WebSocketAppCreated
| ThreadCreated (target : thread_target)
| ThreadStarted (target : thread_target)
| WaveOpened (filename : string)
| WaveParams (nchannels sampwidth framerate : Z)
| WaveFramesWritten (data : bytes)
| WaveClosed.

Definition FRAMES_PER_BUFFER : Z := 1024.
Definition SAMPLE_RATE : Z := 16000.
Definition CHANNELS : Z := 1.

(** ** The manager's attributes *)

Inductive PyAudioObj : Type := PyAudioHandle.
Inductive StreamObj : Type := StreamHandle.
Inductive WebSocketApp : Type := WebSocketAppHandle.
Inductive Thread : Type := ThreadOf (target : thread_target).

Record TranscriptionManager : Type := mkManager {
  audio : option PyAudioObj;
  stream : option StreamObj;
  ws_app : option WebSocketApp;
  audio_thread : option Thread;
  ws_thread : option Thread;
  stop_event : bool;
  recorded_frames : list bytes;
  committed_text : string;
  partial_text : value;
  transcript_text : string;
  last_final_time : float;
  status : string;
  is_running : bool
}.

(** [TranscriptionManager.__init__] *)
Definition init : TranscriptionManager :=
  {| audio := None; stream := None; ws_app := None;
     audio_thread := None; ws_thread := None;
     stop_event := false; recorded_frames := [];
     committed_text := ""; partial_text := VStr ""; transcript_text := "";
     last_final_time := 0%float;
     status := "Detenido"; is_running := false |}.

Definition set_audio v (m : TranscriptionManager) :=
  mkManager v (stream m) (ws_app m) (audio_thread m) (ws_thread m) (stop_event m)
    (recorded_frames m) (committed_text m) (partial_text m) (transcript_text m)
    (last_final_time m) (status m) (is_running m).
Definition set_stream v (m : TranscriptionManager) :=
  mkManager (audio m) v (ws_app m) (audio_thread m) (ws_thread m) (stop_event m)
    (recorded_frames m) (committed_text m) (partial_text m) (transcript_text m)
    (last_final_time m) (status m) (is_running m).
Definition set_ws_app v (m : TranscriptionManager) :=
  mkManager (audio m) (stream m) v (audio_thread m) (ws_thread m) (stop_event m)
    (recorded_frames m) (committed_text m) (partial_text m) (transcript_text m)
    (last_final_time m) (status m) (is_running m).
Definition set_audio_thread v (m : TranscriptionManager) :=
  mkManager (audio m) (stream m) (ws_app m) v (ws_thread m) (stop_event m)
    (recorded_frames m) (committed_text m) (partial_text m) (transcript_text m)
    (last_final_time m) (status m) (is_running m).
Definition set_ws_thread v (m : TranscriptionManager) :=
  mkManager (audio m) (stream m) (ws_app m) (audio_thread m) v (stop_event m)
    (recorded_frames m) (committed_text m) (partial_text m) (transcript_text m)
    (last_final_time m) (status m) (is_running m).
Definition set_stop_event v (m : TranscriptionManager) :=
  mkManager (audio m) (stream m) (ws_app m) (audio_thread m) (ws_thread m) v
    (recorded_frames m) (committed_text m) (partial_text m) (transcript_text m)
    (last_final_time m) (status m) (is_running m).
Definition set_recorded_frames v (m : TranscriptionManager) :=
  mkManager (audio m) (stream m) (ws_app m) (audio_thread m) (ws_thread m) (stop_event m)
    v (committed_text m) (partial_text m) (transcript_text m)
    (last_final_time m) (status m) (is_running m).
Definition set_committed_text v (m : TranscriptionManager) :=
  mkManager (audio m) (stream m) (ws_app m) (audio_thread m) (ws_thread m) (stop_event m)
    (recorded_frames m) v (partial_text m) (transcript_text m)
    (last_final_time m) (status m) (is_running m).
Definition set_partial_text v (m : TranscriptionManager) :=
  mkManager (audio m) (stream m) (ws_app m) (audio_thread m) (ws_thread m) (stop_event m)
    (recorded_frames m) (committed_text m) v (transcript_text m)
    (last_final_time m) (status m) (is_running m).
Definition set_transcript_text v (m : TranscriptionManager) :=
  mkManager (audio m) (stream m) (ws_app m) (audio_thread m) (ws_thread m) (stop_event m)
    (recorded_frames m) (committed_text m) (partial_text m) v
    (last_final_time m) (status m) (is_running m).
Definition set_last_final_time v (m : TranscriptionManager) :=
  mkManager (audio m) (stream m) (ws_app m) (audio_thread m) (ws_thread m) (stop_event m)
    (recorded_frames m) (committed_text m) (partial_text m) (transcript_text m)
    v (status m) (is_running m).
Definition set_status v (m : TranscriptionManager) :=
  mkManager (audio m) (stream m) (ws_app m) (audio_thread m) (ws_thread m) (stop_event m)
    (recorded_frames m) (committed_text m) (partial_text m) (transcript_text m)
    (last_final_time m) v (is_running m).
Definition set_is_running v (m : TranscriptionManager) :=
  mkManager (audio m) (stream m) (ws_app m) (audio_thread m) (ws_thread m) (stop_event m)
    (recorded_frames m) (committed_text m) (partial_text m) (transcript_text m)
    (last_final_time m) (status m) v.

(** ** Methods as computations

    A method body runs on the manager, may assign its attributes, may raise,
    and leaves a trace of the calls it made.  Attributes assigned before an
    exception stay assigned. *)
Module Run.

Inductive result (A : Type) : Type :=
| Value (a : A)
| Raised (e : exception).
Arguments Value {A} a.
Arguments Raised {A} e.

Record run (A : Type) : Type := mkRun {
  res : result A;
  self : TranscriptionManager;
  trace : list event
}.
Arguments mkRun {A} res self trace.
Arguments res {A} r.
Arguments self {A} r.
Arguments trace {A} r.

Definition M (A : Type) : Type := TranscriptionManager -> run A.

Definition ret {A} (a : A) : M A := fun m => mkRun (Value a) m [].

Definition raise {A} (e : exception) : M A := fun m => mkRun (Raised e) m [].

Definition bind {A B} (c : M A) (k : A -> M B) : M B :=
  fun m =>
    match c m with
    | mkRun (Value a) m1 t1 =>
        match k a m1 with
        | mkRun r m2 t2 => mkRun r m2 (t1 ++ t2)
        end
    | mkRun (Raised e) m1 t1 => mkRun (Raised e) m1 t1
    end.

(** [try: body except Exception as e: handler(e)] *)
Definition try_except {A} (body : M A) (handler : exception -> M A) : M A :=
  fun m =>
    match body m with
    | mkRun (Value a) m1 t1 => mkRun (Value a) m1 t1
    | mkRun (Raised e) m1 t1 =>
        match handler e m1 with
        | mkRun r m2 t2 => mkRun r m2 (t1 ++ t2)
        end
    end.

Definition get : M TranscriptionManager := fun m => mkRun (Value m) m [].

Definition assign (f : TranscriptionManager -> TranscriptionManager) : M unit :=
  fun m => mkRun (Value tt) (f m) [].

Definition emit (e : event) : M unit := fun m => mkRun (Value tt) m [e].

Definition print (l : line) : M unit := emit (Print l).

End Run.
Import Run.

Declare Scope py_scope.
Delimit Scope py_scope with py.
Notation "x <- c ;; k" := (bind c (fun x => k))
  (at level 61, c at next level, right associativity) : py_scope.
Notation "c ;; k" := (bind c (fun _ => k))
  (at level 61, right associativity) : py_scope.
Open Scope py_scope.

(** [data.get(key, default)]; only a dictionary has the method. *)
Definition py_get (data : value) (key : string) (default : value) : M value :=
  match data with
  | VDict items => ret (Py.get items key default)
  | _ => raise (AttributeError data "get")
  end.

(** [a + b] with [a] a string. *)
Definition str_add (a : string) (b : value) : M string :=
  match b with
  | VStr t => ret (a ++ t)
  | _ => raise (TypeError_concat b)
  end.

Definition json_loads (message : loads_result) : M value :=
  match message with
  | Decoded data => ret data
  | DecodeError msg => raise (JSONDecodeError msg)
  end.

Definition newline : string := String "010"%char EmptyString.

(** ** [on_message]

    [now] is what [time.time()] returns during the call; the handler reads
    the clock at most once. *)
Definition on_message_try (now : float) (message : loads_result) : M unit :=
  data <- json_loads message ;;
  msg_type <- py_get data "type" VNone ;;
  if Py.eq_str msg_type "Begin" then
    session_id <- py_get data "id" VNone ;;
    print (SessionBegan session_id) ;;
    assign (set_last_final_time now)
  else if Py.eq_str msg_type "Turn" then
    transcript <- py_get data "transcript" (VStr "") ;;
    is_final <- py_get data "turn_is_formatted" (VBool false) ;;
    (if Py.truthy is_final then
       (if Py.truthy transcript then
          let current_time := now in
          m <- get ;;
          let silence_duration := PrimFloat.sub current_time (last_final_time m) in
          let separator :=
            if negb (Py.truthy (VStr (committed_text m))) then ""
            else if PrimFloat.ltb 2.0%float silence_duration then newline ++ newline
            else " " in
          suffix <- str_add separator transcript ;;
          assign (set_committed_text (committed_text m ++ suffix)) ;;
          assign (set_last_final_time current_time)
        else ret tt) ;;
       assign (set_partial_text (VStr ""))
     else
       assign (set_partial_text transcript)) ;;
    m <- get ;;
    let separator_partial :=
      if Py.truthy (Py.and_ (VStr (committed_text m)) (partial_text m)) then " " else "" in
    text <- str_add (committed_text m ++ separator_partial) (partial_text m) ;;
    assign (set_transcript_text text)
  else if Py.eq_str msg_type "Termination" then
    print SessionTerminated
  else ret tt.

Definition on_message (now : float) (message : loads_result) : M unit :=
  try_except (on_message_try now message)
             (fun e => print (ErrorHandlingMessage e)).

(** ** [on_open] and the capture loop *)

(** A call into a library: its outcome is given by the world. *)
Definition call {A} (o : outcome A) : M A :=
  match o with
  | Ok a => ret a
  | Failed msg => raise (Exception_ msg)
  end.

(** [with self.recording_lock: self.recorded_frames.append(audio_data)] *)
Definition recorded_frames_append (audio_data : bytes) : M unit :=
  assign (fun m => set_recorded_frames (recorded_frames m ++ [audio_data]) m).

Record capture_env : Type := mkCapture {
  read_result : outcome bytes;
  send_result : outcome unit
}.

Inductive loop_step : Type := Continue | Break.

(** One turn of the [while] loop of [stream_audio], after its test. *)
Definition stream_audio_iter (env : capture_env) : M loop_step :=
  try_except
    (m <- get ;;
     match stream m with
     | Some _ =>
         audio_data <- call (read_result env) ;;
         emit (StreamRead FRAMES_PER_BUFFER) ;;
         recorded_frames_append audio_data ;;
         call (send_result env) ;;
         emit (WsSendBinary audio_data) ;;
         ret Continue
     | None => ret Continue
     end)
    (fun e => print (ErrorStreamingAudio e) ;; ret Break).

(** The loop, run for as many turns as the world is scripted for. *)
Fixpoint stream_audio_loop (envs : list capture_env) : M unit :=
  m <- get ;;
  if stop_event m then print AudioStreamingStopped
  else
    match envs with
    | [] => ret tt
    | env :: rest =>
        step <- stream_audio_iter env ;;
        match step with
        | Continue => stream_audio_loop rest
        | Break => print AudioStreamingStopped
        end
    end.

Definition stream_audio (envs : list capture_env) : M unit :=
  print StartingAudioStreaming ;;
  stream_audio_loop envs.

Definition on_open : M unit :=
  print WebSocketOpened ;;
  assign (set_status "Conectado. Grabando...") ;;
  emit (ThreadCreated stream_audio_target) ;;
  assign (set_audio_thread (Some (ThreadOf stream_audio_target))) ;;
  emit (ThreadStarted stream_audio_target).

(** ** [on_error], [save_wav_file], [on_close] *)

Definition on_error (error : string) : M unit :=
  assign (set_status ("Error: " ++ error)) ;;
  assign (set_stop_event true).

Record wave_env : Type := mkWave {
  wave_open : outcome unit;
  wave_writeframes : outcome unit;
  wave_close : outcome unit
}.

(** [timestamp] is [datetime.now().strftime(...)]. *)
Definition save_wav_file (timestamp : string) (env : wave_env) : M unit :=
  m <- get ;;
  match recorded_frames m with
  | [] => ret tt
  | _ :: _ =>
      let filename := "recorded_audio_" ++ timestamp ++ ".wav" in
      try_except
        (call (wave_open env) ;;
         emit (WaveOpened filename) ;;
         try_except
           (emit (WaveParams CHANNELS 2 SAMPLE_RATE) ;;
            m <- get ;;
            call (wave_writeframes env) ;;
            emit (WaveFramesWritten (concat (recorded_frames m))))
           (fun e => emit WaveClosed ;; raise e) ;;
         call (wave_close env) ;;
         emit WaveClosed ;;
         print (AudioSavedTo filename) ;;
         assign (set_recorded_frames []))
        (fun e => print (ErrorSavingWav e))
  end.

Definition on_close (timestamp : string) (env : wave_env) : M unit :=
  print WebSocketDisconnected ;;
  save_wav_file timestamp env ;;
  assign (set_is_running false) ;;
  assign (set_status "Desconectado. Archivo guardado.").

(** ** [start_transcription] *)

Record start_env : Type := mkStart {
  pyaudio_result : outcome unit;
  open_result : outcome unit
}.

Definition start_transcription (now : float) (env : start_env) : M unit :=
  m <- get ;;
  if is_running m then ret tt
  else
    assign (set_stop_event false) ;;
    assign (set_committed_text "") ;;
    assign (set_partial_text (VStr "")) ;;
    assign (set_transcript_text "") ;;
    assign (set_recorded_frames []) ;;
    assign (set_last_final_time now) ;;
    assign (set_is_running true) ;;
    assign (set_status "Iniciando conexión...") ;;
    call (pyaudio_result env) ;;
    emit PyAudioCreated ;;
    assign (set_audio (Some PyAudioHandle)) ;;
    match open_result env with
    | Failed e =>
        assign (set_status ("Error micrófono: " ++ e)) ;;
        assign (set_is_running false)
    | Ok _ =>
        emit StreamOpenCalled ;;
        assign (set_stream (Some StreamHandle)) ;;
        emit WebSocketAppCreated ;;
        assign (set_ws_app (Some WebSocketAppHandle)) ;;
        emit (ThreadCreated ws_run_forever_target) ;;
        assign (set_ws_thread (Some (ThreadOf ws_run_forever_target))) ;;
        emit (ThreadStarted ws_run_forever_target)
    end.

(** ** Payloads and states used in the statements *)

Definition turn_items (transcript : string) (is_final : bool) : list (string * value) :=
  [("type", VStr "Turn"); ("transcript", VStr transcript);
   ("turn_is_formatted", VBool is_final)].

Definition turn (transcript : string) (is_final : bool) : loads_result :=
  Decoded (VDict (turn_items transcript is_final)).

Definition after {A} (c : M A) (m : TranscriptionManager) : TranscriptionManager :=
  self (c m).

(** The two rules of the spec's TranscriptMerger, in its own words: the
    separator put before a confirmed sentence, and the text shown. *)
Definition separator (committed : string) (now last_final : float) : string :=
  if String.eqb committed "" then ""
  else if PrimFloat.ltb 2.0%float (PrimFloat.sub now last_final) then newline ++ newline
  else " ".

Definition displayText (committed partial : string) : string :=
  if negb (String.eqb committed "") && negb (String.eqb partial "")
  then committed ++ " " ++ partial
  else if negb (String.eqb committed "") then committed
  else partial.

(** Every way [on_message] can leave the manager: untouched, the clock
    noted, a sentence committed, a draft cleared, a draft stored, or a
    value that is not a string stored as the draft. *)
Inductive handled (now : float) (m : TranscriptionManager) : TranscriptionManager -> Prop :=
| handled_ignored :
    handled now m m
| handled_begin :
    handled now m (set_last_final_time now m)
| handled_final (text : string) :
    text <> "" ->
    handled now m
      (let committed :=
         committed_text m ++ separator (committed_text m) now (last_final_time m) ++ text in
       set_transcript_text committed
         (set_partial_text (VStr "")
            (set_last_final_time now (set_committed_text committed m))))
| handled_final_falsy :
    handled now m (set_transcript_text (committed_text m) (set_partial_text (VStr "") m))
| handled_partial (text : string) :
    handled now m
      (set_transcript_text (displayText (committed_text m) text)
         (set_partial_text (VStr text) m))
| handled_partial_not_str (v : value) :
    Py.is_str v = false ->
    handled now m (set_partial_text v m).

(** The payloads of the spec's connection contract: an object with type
    "Begin" and an id, with type "Turn", a string transcript and a boolean
    turn_is_formatted, or with type "Termination". *)
Definition protocol_payload (data : value) : bool :=
  match data with
  | VDict items =>
      if Py.eq_str (Py.get items "type" VNone) "Begin" then
        match Py.lookup "id" items with Some _ => true | None => false end
      else if Py.eq_str (Py.get items "type" VNone) "Turn" then
        match Py.lookup "transcript" items, Py.lookup "turn_is_formatted" items with
        | Some (VStr _), Some (VBool _) => true
        | _, _ => false
        end
      else Py.eq_str (Py.get items "type" VNone) "Termination"
  | _ => false
  end.

Definition malformed (message : loads_result) : bool :=
  match message with
  | DecodeError _ => true
  | Decoded data => negb (protocol_payload data)
  end.

(** Messages that reach neither the "Begin" nor the "Turn" branch. *)
Definition unhandled (message : loads_result) : bool :=
  match message with
  | DecodeError _ => true
  | Decoded (VDict items) =>
      negb (Py.eq_str (Py.get items "type" VNone) "Begin")
      && negb (Py.eq_str (Py.get items "type" VNone) "Turn")
  | Decoded _ => true
  end.

(** Whether the WAV file can be created, written and closed. *)
Definition wave_succeeds (env : wave_env) : bool :=
  match wave_open env, wave_writeframes env, wave_close env with
  | Ok _, Ok _, Ok _ => true
  | _, _, _ => false
  end.

(** A manager after a session: a sentence committed, a draft pending,
    chunks recorded, the cancellation signal set, not running. *)
Definition after_a_session : TranscriptionManager :=
  set_stop_event true
    (set_recorded_frames [[x01; x02]; [x03]]
       (after (on_message 1.0%float (turn "wor" false))
          (after (on_message 0%float (turn "hello" true)) init))).

(** ** [stop_transcription]

    The calls [stop_transcription] makes are its own; they are traced
    apart from those of the other methods.  Only the sending of the
    Terminate message is guarded by a [try]. *)

Inductive stop_call : Type :=
| WsSendJson (payload : value)
| PrintErrorSendingTermination (e : exception)
| WsClosed
| StreamStopped
| StreamClosed
| PyAudioTerminated.

(** What the socket, the stream and PyAudio answer during the stop:
    [sock_connected] is [ws_app.sock and ws_app.sock.connected]. *)
Record stop_env : Type := mkStop {
  sock_connected : bool;
  send_terminate_result : outcome unit;
  ws_close_result : outcome unit;
  is_active_result : outcome bool;
  stop_stream_result : outcome unit;
  stream_close_result : outcome unit;
  terminate_result : outcome unit
}.

Record stop_run : Type := mkStopRun {
  stop_res : result unit;
  stop_self : TranscriptionManager;
  stop_calls : list stop_call
}.

Definition S : Type := TranscriptionManager -> stop_run.

Definition s_pass : S := fun m => mkStopRun (Value tt) m [].

Definition s_raise (e : exception) : S := fun m => mkStopRun (Raised e) m [].

Definition s_assign (f : TranscriptionManager -> TranscriptionManager) : S :=
  fun m => mkStopRun (Value tt) (f m) [].

Definition s_emit (c : stop_call) : S := fun m => mkStopRun (Value tt) m [c].

Definition s_seq (c k : S) : S :=
  fun m =>
    match c m with
    | mkStopRun (Value _) m1 t1 =>
        match k m1 with
        | mkStopRun r m2 t2 => mkStopRun r m2 (t1 ++ t2)
        end
    | mkStopRun (Raised e) m1 t1 => mkStopRun (Raised e) m1 t1
    end.

(** A call into a library, traced when it returns. *)
Definition s_call (o : outcome unit) (c : stop_call) : S :=
  match o with
  | Ok _ => s_emit c
  | Failed msg => s_raise (Exception_ msg)
  end.

Notation "c >>> k" := (s_seq c k) (at level 62, right associativity) : py_scope.

Definition terminate_message : value := VDict [("type", VStr "Terminate")].

(** [# Send termination message] *)
Definition send_terminate (env : stop_env) : S :=
  fun m =>
    match ws_app m with
    | Some _ =>
        if sock_connected env then
          match send_terminate_result env with
          | Ok _ => s_emit (WsSendJson terminate_message) m
          | Failed msg => s_emit (PrintErrorSendingTermination (Exception_ msg)) m
          end
        else s_pass m
    | None => s_pass m
    end.

(** [# Close WebSocket] *)
Definition close_websocket (env : stop_env) : S :=
  fun m =>
    match ws_app m with
    | Some _ => s_call (ws_close_result env) WsClosed m
    | None => s_pass m
    end.

(** [# Cleanup Audio], the stream *)
Definition cleanup_stream (env : stop_env) : S :=
  fun m =>
    match stream m with
    | Some _ =>
        (match is_active_result env with
         | Ok true => s_call (stop_stream_result env) StreamStopped
         | Ok false => s_pass
         | Failed msg => s_raise (Exception_ msg)
         end >>>
         s_call (stream_close_result env) StreamClosed >>>
         s_assign (set_stream None)) m
    | None => s_pass m
    end.

(** [# Cleanup Audio], PyAudio *)
Definition cleanup_audio (env : stop_env) : S :=
  fun m =>
    match audio m with
    | Some _ =>
        (s_call (terminate_result env) PyAudioTerminated >>>
         s_assign (set_audio None)) m
    | None => s_pass m
    end.

Definition stop_transcription (env : stop_env) : S :=
  fun m =>
    if negb (is_running m) then s_pass m
    else
      (s_assign (set_status "Deteniendo...") >>>
       s_assign (set_stop_event true) >>>
       send_terminate env >>>
       close_websocket env >>>
       cleanup_stream env >>>
       cleanup_audio env >>>
       s_assign (set_is_running false)) m.

(** ** Notions used in the statements about whole runs *)

(** The chunks sent over the socket, in order. *)
Definition sent_chunks (t : list event) : list bytes :=
  flat_map (fun e => match e with WsSendBinary data => [data] | _ => [] end) t.

(** A capture script in which every read and every send succeeds. *)
Definition ok_script (chunks : list bytes) : list capture_env :=
  map (fun c => mkCapture (Ok c) (Ok tt)) chunks.



(** The shown text is the one [displayText] gives for the committed text
    and the draft. *)
Definition shown_text_consistent (m : TranscriptionManager) : Prop :=
  exists partial,
    partial_text m = VStr partial
    /\ transcript_text m = displayText (committed_text m) partial.

(** A Turn that is not confirmed and whose transcript is not a string. *)
Definition stores_bad_draft (message : loads_result) : bool :=
  match message with
  | Decoded (VDict items) =>
      Py.eq_str (Py.get items "type" VNone) "Turn"
      && negb (Py.truthy (Py.get items "turn_is_formatted" (VBool false)))
      && negb (Py.is_str (Py.get items "transcript" (VStr "")))
  | _ => false
  end.

(** ** Managers and relations used in the further statements *)

(** Every run of [c] leaves the manager related by [R] to the one it
    started from, whether [c] returns or raises. *)
Definition s_keeps (R : TranscriptionManager -> TranscriptionManager -> Prop) (c : S) : Prop :=
  forall m, R m (stop_self (c m)).

(** A manager in the middle of a session. *)
Definition running_session : TranscriptionManager :=
  set_is_running true after_a_session.

(** A manager that has just started, the stream open, nothing recorded. *)
Definition streaming_session : TranscriptionManager :=
  set_stream (Some StreamHandle) (set_is_running true init).

(** A running manager holding the socket, the stream and PyAudio. *)
Definition live_session : TranscriptionManager :=
  set_ws_app (Some WebSocketAppHandle)
    (set_audio (Some PyAudioHandle)
       (set_stream (Some StreamHandle) (set_is_running true after_a_session))).

(** What a stop leaves alone, and the cancellation signal once set. *)
Definition stop_frame (m m' : TranscriptionManager) : Prop :=
  committed_text m' = committed_text m
  /\ partial_text m' = partial_text m
  /\ transcript_text m' = transcript_text m
  /\ last_final_time m' = last_final_time m
  /\ recorded_frames m' = recorded_frames m
  /\ ws_app m' = ws_app m
  /\ ws_thread m' = ws_thread m
  /\ audio_thread m' = audio_thread m
  /\ (stop_event m = true -> stop_event m' = true).

(** The running flag is as it was. *)
Definition same_running (m m' : TranscriptionManager) : Prop :=
  is_running m' = is_running m.

(** On a running manager, a computation either completes and leaves it
    not running, or raises and leaves it running. *)
Definition s_marks (c : S) : Prop :=
  forall m,
    is_running m = true ->
    (stop_res (c m) = Value tt /\ is_running (stop_self (c m)) = false)
    \/ ((exists e, stop_res (c m) = Raised e) /\ is_running (stop_self (c m)) = true).

(** * Lemmas *)

(** ** Strings *)

Lemma append_nil_r (s : string) : s ++ "" = s.
Proof.
  induction s as [|c s IH]; cbn; [reflexivity | now rewrite IH].
Qed.

Lemma append_assoc (s t u : string) : (s ++ t) ++ u = s ++ t ++ u.
Proof.
  induction s as [|c s IH]; cbn; [reflexivity | now rewrite IH].
Qed.

Lemma prefix_append (s t : string) : String.prefix s (s ++ t) = true.
Proof.
  induction s as [|c s IH]; cbn.
  - now destruct t.
  - destruct (ascii_dec c c) as [_|N]; [exact IH | now elim N].
Qed.

(** ** What [on_message] does, case by case *)

Arguments Py.get : simpl never.

Ltac enter_handler :=
  unfold on_message, on_message_try; cbn;
  unfold try_except, bind at 1; cbn.

Lemma on_message_decode_error now msg m :
  on_message now (DecodeError msg) m
  = mkRun (Value tt) m [Print (ErrorHandlingMessage (JSONDecodeError msg))].
Proof. reflexivity. Qed.

Lemma on_message_not_dict now data m :
  (forall items, data <> VDict items) ->
  on_message now (Decoded data) m
  = mkRun (Value tt) m [Print (ErrorHandlingMessage (AttributeError data "get"))].
Proof.
  intros H. destruct data; try reflexivity. now elim (H items).
Qed.

Lemma on_message_begin now items m :
  Py.eq_str (Py.get items "type" VNone) "Begin" = true ->
  on_message now (Decoded (VDict items)) m
  = mkRun (Value tt) (set_last_final_time now m)
      [Print (SessionBegan (Py.get items "id" VNone))].
Proof.
  intros H. enter_handler. now rewrite H.
Qed.

Lemma on_message_other now items m :
  Py.eq_str (Py.get items "type" VNone) "Begin" = false ->
  Py.eq_str (Py.get items "type" VNone) "Turn" = false ->
  on_message now (Decoded (VDict items)) m
  = mkRun (Value tt) m
      (if Py.eq_str (Py.get items "type" VNone) "Termination"
       then [Print SessionTerminated] else []).
Proof.
  intros H1 H2. enter_handler. rewrite H1, H2.
  now destruct (Py.eq_str _ "Termination").
Qed.

Lemma separator_partial_empty (c : string) :
  (if Py.truthy (Py.and_ (VStr c) (VStr "")) then " " else "") = "".
Proof.
  unfold Py.and_; cbn. destruct (String.eqb c "") eqn:E; cbn; [now rewrite E | reflexivity].
Qed.

Lemma separator_partial_display (c p : string) :
  (c ++ (if Py.truthy (Py.and_ (VStr c) (VStr p)) then " " else "")) ++ p
  = displayText c p.
Proof.
  unfold Py.and_, displayText; cbn.
  destruct (String.eqb c "") eqn:Ec; cbn.
  - rewrite Ec. apply String.eqb_eq in Ec. subst c. reflexivity.
  - destruct (String.eqb p "") eqn:Ep; cbn.
    + apply String.eqb_eq in Ep. subst p. now rewrite !append_nil_r.
    + now rewrite append_assoc.
Qed.

Section Turn.

Variables (now : float) (items : list (string * value)) (m : TranscriptionManager).

Local Abbreviation transcript := (Py.get items "transcript" (VStr "")).
Local Abbreviation is_final := (Py.get items "turn_is_formatted" (VBool false)).

Hypothesis Htype : Py.get items "type" VNone = VStr "Turn".

(** A confirmed, non-empty sentence. *)
Lemma on_message_final_text text :
  Py.truthy is_final = true ->
  transcript = VStr text ->
  text <> "" ->
  let committed :=
    committed_text m ++ separator (committed_text m) now (last_final_time m) ++ text in
  on_message now (Decoded (VDict items)) m
  = mkRun (Value tt)
      (set_transcript_text committed
         (set_partial_text (VStr "")
            (set_last_final_time now (set_committed_text committed m))))
      [].
Proof.
  intros Hfin Htr Hne committed.
  enter_handler. rewrite Htype; cbn. rewrite Htr, Hfin; cbn.
  apply String.eqb_neq in Hne. rewrite Hne; cbn.
  rewrite separator_partial_empty, !append_nil_r.
  unfold committed, separator. rewrite negb_involutive. reflexivity.
Qed.

(** A confirmed turn whose transcript is falsy (the empty string, or
    [None], [0], an empty list, ...). *)
Lemma on_message_final_falsy :
  Py.truthy is_final = true ->
  Py.truthy transcript = false ->
  on_message now (Decoded (VDict items)) m
  = mkRun (Value tt)
      (set_transcript_text (committed_text m) (set_partial_text (VStr "") m))
      [].
Proof.
  intros Hfin Htr.
  enter_handler. rewrite Htype; cbn. rewrite Hfin, Htr; cbn.
  now rewrite separator_partial_empty, !append_nil_r.
Qed.

(** A confirmed turn whose transcript is truthy and not a string: the
    concatenation raises before anything is assigned. *)
Lemma on_message_final_not_str :
  Py.truthy is_final = true ->
  Py.truthy transcript = true ->
  Py.is_str transcript = false ->
  on_message now (Decoded (VDict items)) m
  = mkRun (Value tt) m [Print (ErrorHandlingMessage (TypeError_concat transcript))].
Proof.
  intros Hfin Htr Hstr.
  enter_handler. rewrite Htype; cbn. rewrite Hfin, Htr; cbn.
  destruct (Py.get items "transcript" (VStr "")); try discriminate; reflexivity.
Qed.

(** A draft. *)
Lemma on_message_partial_text text :
  Py.truthy is_final = false ->
  transcript = VStr text ->
  on_message now (Decoded (VDict items)) m
  = mkRun (Value tt)
      (set_transcript_text (displayText (committed_text m) text)
         (set_partial_text (VStr text) m))
      [].
Proof.
  intros Hfin Htr.
  enter_handler. rewrite Htype; cbn. rewrite Hfin, Htr; cbn.
  now rewrite separator_partial_display.
Qed.

(** A draft whose transcript is not a string: it is stored, and building
    the shown text raises. *)
Lemma on_message_partial_not_str :
  Py.truthy is_final = false ->
  Py.is_str transcript = false ->
  on_message now (Decoded (VDict items)) m
  = mkRun (Value tt) (set_partial_text transcript m)
      [Print (ErrorHandlingMessage (TypeError_concat transcript))].
Proof.
  intros Hfin Hstr.
  enter_handler. rewrite Htype; cbn. rewrite Hfin; cbn.
  destruct (Py.get items "transcript" (VStr "")); try discriminate; reflexivity.
Qed.

End Turn.

Lemma eq_str_true (v : value) (lit : string) :
  Py.eq_str v lit = true -> v = VStr lit.
Proof.
  destruct v; cbn; try discriminate.
  intros H. apply String.eqb_eq in H. now subst.
Qed.

Lemma is_str_true (v : value) : Py.is_str v = true -> exists s, v = VStr s.
Proof.
  destruct v; cbn; try discriminate. intros _. now exists s.
Qed.

Lemma displayText_no_partial (c : string) : displayText c "" = c.
Proof.
  unfold displayText. destruct (String.eqb c "") eqn:E; cbn; [|reflexivity].
  apply String.eqb_eq in E. now subst.
Qed.

Lemma on_message_handled (now : float) (message : loads_result) (m : TranscriptionManager) :
  res (on_message now message m) = Value tt
  /\ handled now m (after (on_message now message) m).
Proof.
  unfold after.
  destruct message as [data | msg]; [| split; [reflexivity | constructor]].
  destruct data as [ | b | z | f | s | l | items];
    try (split; [reflexivity | constructor]).
  destruct (Py.eq_str (Py.get items "type" VNone) "Begin") eqn:HB.
  { rewrite (on_message_begin now items m HB). split; [reflexivity | constructor]. }
  destruct (Py.eq_str (Py.get items "type" VNone) "Turn") eqn:HT.
  2:{ rewrite (on_message_other now items m HB HT). split; [reflexivity | constructor]. }
  apply eq_str_true in HT.
  destruct (Py.truthy (Py.get items "turn_is_formatted" (VBool false))) eqn:HF;
    destruct (Py.is_str (Py.get items "transcript" (VStr ""))) eqn:HS.
  - destruct (is_str_true _ HS) as [text Htext].
    destruct (String.eqb text "") eqn:Etext.
    + rewrite (on_message_final_falsy now items m HT HF)
        by (rewrite Htext; cbn; now rewrite Etext).
      split; [reflexivity | constructor].
    + apply String.eqb_neq in Etext.
      rewrite (on_message_final_text now items m HT text HF Htext Etext).
      split; [reflexivity | now constructor].
  - destruct (Py.truthy (Py.get items "transcript" (VStr ""))) eqn:HTr.
    + rewrite (on_message_final_not_str now items m HT HF HTr HS).
      split; [reflexivity | constructor].
    + rewrite (on_message_final_falsy now items m HT HF HTr).
      split; [reflexivity | constructor].
  - destruct (is_str_true _ HS) as [text Htext].
    rewrite (on_message_partial_text now items m HT text HF Htext).
    split; [reflexivity | constructor].
  - rewrite (on_message_partial_not_str now items m HT HF HS).
    split; [reflexivity | now constructor].
Qed.

(** [on_message] reads the payload through four keys only. *)
Lemma on_message_ext now items items' m :
  Py.get items' "type" VNone = Py.get items "type" VNone ->
  Py.get items' "id" VNone = Py.get items "id" VNone ->
  Py.get items' "transcript" (VStr "") = Py.get items "transcript" (VStr "") ->
  Py.get items' "turn_is_formatted" (VBool false)
  = Py.get items "turn_is_formatted" (VBool false) ->
  on_message now (Decoded (VDict items')) m = on_message now (Decoded (VDict items)) m.
Proof.
  intros H1 H2 H3 H4. unfold on_message, try_except, on_message_try, bind; cbn.
  now rewrite H1, H2, H3, H4.
Qed.

Lemma get_absent items key default :
  Py.lookup key items = None -> Py.get items key default = default.
Proof. unfold Py.get. now intros ->. Qed.

Lemma on_message_turn_final now text m :
  text <> "" ->
  on_message now (turn text true) m
  = mkRun (Value tt)
      (let committed :=
         committed_text m ++ separator (committed_text m) now (last_final_time m) ++ text in
       set_transcript_text committed
         (set_partial_text (VStr "")
            (set_last_final_time now (set_committed_text committed m))))
      [].
Proof.
  intros H. unfold turn.
  exact (on_message_final_text now (turn_items text true) m eq_refl text eq_refl eq_refl H).
Qed.

Lemma on_message_turn_final_empty now m :
  on_message now (turn "" true) m
  = mkRun (Value tt)
      (set_transcript_text (committed_text m) (set_partial_text (VStr "") m)) [].
Proof.
  unfold turn. exact (on_message_final_falsy now (turn_items "" true) m eq_refl eq_refl eq_refl).
Qed.

(** * The merger *)

(** C1.  A confirmed turn with non-empty text appends [separator ++ text]
    to [committed_text], where the separator is empty when nothing is
    committed yet, two newlines when more than 2.0 seconds passed since the
    last confirmed sentence, and one space otherwise; [last_final_time]
    becomes the time of the call.  "hello" at 0 then "world" at 1.0 gives
    "hello world"; "world" at 3.0 instead gives "hello", two newlines,
    "world". *)
Theorem final_text_is_appended :
  (forall now items text m,
      Py.get items "type" VNone = VStr "Turn" ->
      Py.truthy (Py.get items "turn_is_formatted" (VBool false)) = true ->
      Py.get items "transcript" (VStr "") = VStr text ->
      text <> "" ->
      let m' := after (on_message now (Decoded (VDict items))) m in
      committed_text m'
      = committed_text m ++ separator (committed_text m) now (last_final_time m) ++ text
      /\ last_final_time m' = now)
  /\ (forall committed now last_final,
         (committed = "" -> separator committed now last_final = "")
         /\ (committed <> "" ->
             PrimFloat.ltb 2.0%float (PrimFloat.sub now last_final) = true ->
             separator committed now last_final = newline ++ newline)
         /\ (committed <> "" ->
             PrimFloat.ltb 2.0%float (PrimFloat.sub now last_final) = false ->
             separator committed now last_final = " "))
  /\ (forall m,
         committed_text m = "" ->
         committed_text
           (after (on_message 1.0%float (turn "world" true))
              (after (on_message 0%float (turn "hello" true)) m))
         = "hello world")
  /\ (forall m,
         committed_text m = "" ->
         committed_text
           (after (on_message 3.0%float (turn "world" true))
              (after (on_message 0%float (turn "hello" true)) m))
         = "hello" ++ newline ++ newline ++ "world").
Proof.
  split; [| split; [| split]].
  - intros now items text m Hty Hfin Htr Hne m'. subst m'. unfold after.
    rewrite (on_message_final_text now items m Hty text Hfin Htr Hne).
    split; reflexivity.
  - intros committed now last_final. unfold separator. repeat split.
    + now intros ->.
    + intros Hc ->. apply String.eqb_neq in Hc. now rewrite Hc.
    + intros Hc ->. apply String.eqb_neq in Hc. now rewrite Hc.
  - intros m Hm. unfold after.
    rewrite (on_message_turn_final 0%float "hello") by discriminate.
    cbn [self].
    rewrite (on_message_turn_final 1.0%float "world") by discriminate.
    cbn. rewrite Hm. reflexivity.
  - intros m Hm. unfold after.
    rewrite (on_message_turn_final 0%float "hello") by discriminate.
    cbn [self].
    rewrite (on_message_turn_final 3.0%float "world") by discriminate.
    cbn. rewrite Hm. reflexivity.
Qed.

Lemma final_text_is_appended_witness :
  let m := after (on_message 0%float (turn "hello" true)) init in
  let m' := after (on_message 3.0%float (turn "world" true)) m in
  committed_text m'
  = committed_text m ++ separator (committed_text m) 3.0%float (last_final_time m) ++ "world"
  /\ last_final_time m' = 3.0%float.
Proof.
  refine (proj1 final_text_is_appended 3.0%float (turn_items "world" true) "world" _ _ _ _ _).
  - reflexivity.
  - reflexivity.
  - reflexivity.
  - discriminate.
Defined.

(** C2.  A confirmed turn with empty text sets [partial_text] to the empty
    string and leaves [committed_text] and [last_final_time] as they were
    (of the other attributes only the shown text is rebuilt).  So "hello" at
    0, an empty confirmed turn at 0.5 and "world" at 1.0 give
    "hello world"; and with the empty turn at 2.5 and "world" at 3.0 the
    pause is still measured from 0. *)
Theorem empty_final_commits_nothing :
  (forall now items m,
      Py.get items "type" VNone = VStr "Turn" ->
      Py.truthy (Py.get items "turn_is_formatted" (VBool false)) = true ->
      Py.get items "transcript" (VStr "") = VStr "" ->
      let m' := after (on_message now (Decoded (VDict items))) m in
      partial_text m' = VStr ""
      /\ committed_text m' = committed_text m
      /\ last_final_time m' = last_final_time m
      /\ m' = set_transcript_text (committed_text m) (set_partial_text (VStr "") m))
  /\ (forall m,
         committed_text m = "" ->
         committed_text
           (after (on_message 1.0%float (turn "world" true))
              (after (on_message 0.5%float (turn "" true))
                 (after (on_message 0%float (turn "hello" true)) m)))
         = "hello world")
  /\ (forall m,
         committed_text m = "" ->
         committed_text
           (after (on_message 3.0%float (turn "world" true))
              (after (on_message 2.5%float (turn "" true))
                 (after (on_message 0%float (turn "hello" true)) m)))
         = "hello" ++ newline ++ newline ++ "world").
Proof.
  split; [| split].
  - intros now items m Hty Hfin Htr m'. subst m'. unfold after.
    rewrite (on_message_final_falsy now items m Hty Hfin)
      by (rewrite Htr; reflexivity).
    repeat split.
  - intros m Hm. unfold after.
    rewrite (on_message_turn_final 0%float "hello") by discriminate. cbn [self].
    rewrite on_message_turn_final_empty. cbn [self].
    rewrite (on_message_turn_final 1.0%float "world") by discriminate.
    cbn. rewrite Hm. reflexivity.
  - intros m Hm. unfold after.
    rewrite (on_message_turn_final 0%float "hello") by discriminate. cbn [self].
    rewrite on_message_turn_final_empty. cbn [self].
    rewrite (on_message_turn_final 3.0%float "world") by discriminate.
    cbn. rewrite Hm. reflexivity.
Qed.

Lemma empty_final_commits_nothing_witness :
  let m := after (on_message 0%float (turn "hello" true)) init in
  let m' := after (on_message 0.5%float (turn "" true)) m in
  partial_text m' = VStr ""
  /\ committed_text m' = "hello"
  /\ last_final_time m' = 0%float
  /\ m' = set_transcript_text (committed_text m) (set_partial_text (VStr "") m).
Proof.
  refine (proj1 empty_final_commits_nothing 0.5%float (turn_items "" true) _ _ _ _).
  - reflexivity.
  - reflexivity.
  - reflexivity.
Defined.

Lemma handled_committed_text now m m' :
  handled now m m' ->
  committed_text m' = committed_text m
  \/ exists text,
       text <> ""
       /\ committed_text m'
          = committed_text m ++ separator (committed_text m) now (last_final_time m) ++ text.
Proof.
  intros H. destruct H; cbn; try (now left).
  right. now exists text.
Qed.

(** C3.  [committed_text] only grows: whatever message [on_message] is
    given, the text before the call is a prefix of the text after it, and
    the text is either untouched or extended by a separator and a non-empty
    sentence.  [on_open], [on_error], [on_close] and a turn of the capture
    loop do not assign it.  [start_transcription], when it starts a
    session, empties it. *)
Theorem committed_text_append_only :
  (forall now message m,
      let m' := after (on_message now message) m in
      String.prefix (committed_text m) (committed_text m') = true
      /\ (committed_text m' = committed_text m
          \/ exists text,
               text <> ""
               /\ committed_text m'
                  = committed_text m
                    ++ separator (committed_text m) now (last_final_time m) ++ text))
  /\ (forall error timestamp wenv cenv m,
         committed_text (after on_open m) = committed_text m
         /\ committed_text (after (on_error error) m) = committed_text m
         /\ committed_text (after (on_close timestamp wenv) m) = committed_text m
         /\ committed_text (after (stream_audio_iter cenv) m) = committed_text m)
  /\ (forall now env m,
         committed_text (after (start_transcription now env) m)
         = if is_running m then committed_text m else "").
Proof.
  split; [| split].
  - intros now message m m'. subst m'.
    destruct (on_message_handled now message m) as [_ H].
    apply handled_committed_text in H. split; [| exact H].
    destruct H as [-> | (text & _ & ->)].
    + rewrite <- (append_nil_r (committed_text m)) at 2. apply prefix_append.
    + apply prefix_append.
  - intros error timestamp wenv cenv m. unfold after. repeat split.
    + unfold on_close, save_wav_file, bind, try_except; cbn.
      destruct (recorded_frames m); cbn; [reflexivity |].
      destruct wenv as [[[]|] [[]|] [[]|]]; reflexivity.
    + unfold stream_audio_iter, bind, try_except; cbn.
      destruct (stream m); cbn; [| reflexivity].
      destruct cenv as [[a|] [[]|]]; reflexivity.
  - intros now env m. unfold after, start_transcription, bind; cbn.
    destruct (is_running m); cbn; [reflexivity |].
    destruct env as [[[]|] [[]|]]; reflexivity.
Qed.

(** C4.  After a turn whose transcript is a string (or is absent), the
    shown text is rebuilt from [committed_text] and [partial_text] alone:
    both joined by one space when both are non-empty, otherwise the
    non-empty one, otherwise the empty string. *)
Theorem transcript_text_is_displayText now items m :
  Py.get items "type" VNone = VStr "Turn" ->
  Py.is_str (Py.get items "transcript" (VStr "")) = true ->
  let m' := after (on_message now (Decoded (VDict items))) m in
  exists partial,
    partial_text m' = VStr partial
    /\ transcript_text m' = displayText (committed_text m') partial
    /\ (committed_text m' <> "" -> partial <> "" ->
        transcript_text m' = committed_text m' ++ " " ++ partial)
    /\ (partial = "" -> transcript_text m' = committed_text m')
    /\ (committed_text m' = "" -> transcript_text m' = partial).
Proof.
  intros Hty Hstr m'.
  assert (E : exists partial,
             partial_text m' = VStr partial
             /\ transcript_text m' = displayText (committed_text m') partial).
  { subst m'. unfold after.
    destruct (is_str_true _ Hstr) as [text Htext].
    destruct (Py.truthy (Py.get items "turn_is_formatted" (VBool false))) eqn:HF.
    - destruct (String.eqb text "") eqn:Etext.
      + rewrite (on_message_final_falsy now items m Hty HF)
          by (rewrite Htext; cbn; now rewrite Etext).
        exists "". cbn. now rewrite displayText_no_partial.
      + apply String.eqb_neq in Etext.
        rewrite (on_message_final_text now items m Hty text HF Htext Etext).
        exists "". cbn. now rewrite displayText_no_partial.
    - rewrite (on_message_partial_text now items m Hty text HF Htext).
      exists text. cbn. split; reflexivity. }
  destruct E as (partial & Hp & Ht). exists partial.
  split; [exact Hp | split; [exact Ht |]].
  rewrite Ht. unfold displayText. repeat split.
  - intros Hc Hq. apply String.eqb_neq in Hc, Hq. now rewrite Hc, Hq.
  - intros ->. apply displayText_no_partial.
  - now intros ->.
Qed.

Lemma transcript_text_is_displayText_witness :
  let m := after (on_message 0%float (turn "hello" true)) init in
  let m' := after (on_message 1.0%float (turn "wor" false)) m in
  exists partial,
    partial_text m' = VStr partial
    /\ transcript_text m' = displayText (committed_text m') partial
    /\ (committed_text m' <> "" -> partial <> "" ->
        transcript_text m' = committed_text m' ++ " " ++ partial)
    /\ (partial = "" -> transcript_text m' = committed_text m')
    /\ (committed_text m' = "" -> transcript_text m' = partial).
Proof.
  refine (transcript_text_is_displayText 1.0%float (turn_items "wor" false) _ _ _).
  - reflexivity.
  - reflexivity.
Defined.

(** C9.  A Turn payload without "transcript" is handled as if it carried
    the empty string, one without "turn_is_formatted" as if it carried
    false.  A Turn with neither is a draft with empty text: it sets
    [partial_text] to the empty string, leaves [committed_text] and
    [last_final_time] as they were, and raises and logs nothing. *)
Theorem turn_fields_default :
  (forall now items m,
      Py.lookup "transcript" items = None ->
      on_message now (Decoded (VDict items)) m
      = on_message now (Decoded (VDict (("transcript", VStr "") :: items))) m)
  /\ (forall now items m,
         Py.lookup "turn_is_formatted" items = None ->
         on_message now (Decoded (VDict items)) m
         = on_message now (Decoded (VDict (("turn_is_formatted", VBool false) :: items))) m)
  /\ (forall now items m,
         Py.get items "type" VNone = VStr "Turn" ->
         Py.lookup "transcript" items = None ->
         Py.lookup "turn_is_formatted" items = None ->
         let r := on_message now (Decoded (VDict items)) m in
         res r = Value tt
         /\ trace r = []
         /\ partial_text (self r) = VStr ""
         /\ committed_text (self r) = committed_text m
         /\ last_final_time (self r) = last_final_time m
         /\ transcript_text (self r) = committed_text m).
Proof.
  split; [| split].
  - intros now items m H. symmetry. apply on_message_ext; try reflexivity.
    unfold Py.get; cbn. now rewrite H.
  - intros now items m H. symmetry. apply on_message_ext; try reflexivity.
    unfold Py.get; cbn. now rewrite H.
  - intros now items m Hty Htr Hfin r. subst r.
    rewrite (on_message_partial_text now items m Hty "").
    + cbn. rewrite displayText_no_partial. repeat split.
    + now rewrite (get_absent _ _ _ Hfin).
    + now rewrite (get_absent _ _ _ Htr).
Qed.

Lemma turn_fields_default_witness :
  let m := after (on_message 1.0%float (turn "wor" false))
             (after (on_message 0%float (turn "hello" true)) init) in
  let r := on_message 2.0%float (Decoded (VDict [("type", VStr "Turn")])) m in
  res r = Value tt
  /\ trace r = []
  /\ partial_text (self r) = VStr ""
  /\ committed_text (self r) = "hello"
  /\ last_final_time (self r) = 0%float
  /\ transcript_text (self r) = "hello".
Proof.
  refine (proj2 (proj2 turn_fields_default) 2.0%float [("type", VStr "Turn")] _ _ _ _).
  - reflexivity.
  - reflexivity.
  - reflexivity.
Defined.

(** * Payloads outside the protocol *)

Lemma handled_frame now m m' :
  handled now m m' ->
  is_running m' = is_running m /\ status m' = status m /\ stop_event m' = stop_event m
  /\ recorded_frames m' = recorded_frames m.
Proof.
  intros H. destruct H; cbn; repeat split.
Qed.

Lemma on_message_unhandled now message m :
  unhandled message = true -> after (on_message now message) m = m.
Proof.
  unfold after. destruct message as [data | msg]; [| reflexivity].
  destruct data; try reflexivity. cbn.
  intros H. apply andb_prop in H. destruct H as [HB HT].
  apply negb_true_iff in HB, HT.
  now rewrite (on_message_other now items m HB HT).
Qed.

(** C7, as the code has it.  [on_message] always returns normally and
    never changes the running flag, the status or the cancellation
    signal.  A message that is not valid JSON, that is not an object, or
    whose type is neither "Begin" nor "Turn" leaves the whole manager
    unchanged, and in the first two cases the error is logged.  So does a
    confirmed Turn whose transcript is truthy and not a string. *)
Theorem unhandled_message_is_ignored now message m :
  let r := on_message now message m in
  res r = Value tt
  /\ is_running (self r) = is_running m
  /\ status (self r) = status m
  /\ stop_event (self r) = stop_event m
  /\ (unhandled message = true -> self r = m)
  /\ ((forall items, message <> Decoded (VDict items)) ->
      exists e, trace r = [Print (ErrorHandlingMessage e)])
  /\ (forall items,
         message = Decoded (VDict items) ->
         Py.get items "type" VNone = VStr "Turn" ->
         Py.truthy (Py.get items "turn_is_formatted" (VBool false)) = true ->
         Py.truthy (Py.get items "transcript" (VStr "")) = true ->
         Py.is_str (Py.get items "transcript" (VStr "")) = false ->
         self r = m /\ exists e, trace r = [Print (ErrorHandlingMessage e)]).
Proof.
  intros r. subst r.
  destruct (on_message_handled now message m) as [Hres H].
  apply handled_frame in H. destruct H as (H1 & H2 & H3 & _).
  split; [exact Hres |]. split; [exact H1 |]. split; [exact H2 |].
  split; [exact H3 |]. split; [| split].
  - apply on_message_unhandled.
  - intros Hnd. destruct message as [data | msg].
    + destruct data; try (eexists; reflexivity). now elim (Hnd items).
    + eexists; reflexivity.
  - intros items -> Hty Hfin Htr Hstr.
    rewrite (on_message_final_not_str now items m Hty Hfin Htr Hstr); cbn.
    split; [reflexivity | eexists; reflexivity].
Qed.

Lemma unhandled_message_is_ignored_witness :
  let m := after (on_message 1.0%float (turn "wor" false))
             (after (on_message 0%float (turn "hello" true)) init) in
  let message := Decoded (VDict [("type", VStr "Ping"); ("transcript", VStr "x")]) in
  unhandled message = true /\ self (on_message 2.0%float message m) = m.
Proof.
  split; [reflexivity |].
  refine (proj1 (proj2 (proj2 (proj2 (proj2
            (unhandled_message_is_ignored 2.0%float
               (Decoded (VDict [("type", VStr "Ping"); ("transcript", VStr "x")])) _))))) _).
  reflexivity.
Defined.

(** C7, as stated, fails: a Turn whose transcript is a number is outside
    the protocol and its handling raises (the error is logged), yet the
    number has been stored in [partial_text] by then. *)
Lemma malformed_turn_is_not_ignored :
  let message :=
    Decoded (VDict [("type", VStr "Turn"); ("transcript", VInt 5);
                    ("turn_is_formatted", VBool false)]) in
  let r := on_message 0%float message init in
  malformed message = true
  /\ trace r = [Print (ErrorHandlingMessage (TypeError_concat (VInt 5)))]
  /\ partial_text (self r) = VInt 5
  /\ partial_text (self r) <> partial_text init.
Proof.
  cbv zeta. repeat split. discriminate.
Qed.

(** * The audio buffer *)

Lemma save_wav_file_returns timestamp env m :
  res (save_wav_file timestamp env m) = Value tt.
Proof.
  unfold save_wav_file, bind, try_except; cbn.
  destruct (recorded_frames m); cbn; [reflexivity |].
  destruct env as [[[]|] [[]|] [[]|]]; reflexivity.
Qed.

(** One turn of the capture loop with an open stream stores the chunk it
    read, whether or not sending it succeeds. *)
Lemma stream_audio_iter_records audio_data send m :
  stream m <> None ->
  recorded_frames (after (stream_audio_iter (mkCapture (Ok audio_data) send)) m)
  = (recorded_frames m ++ [audio_data])%list.
Proof.
  intros H. unfold after, stream_audio_iter, bind, try_except; cbn.
  destruct (stream m); [| now elim H]. cbn.
  destruct send as [[]|]; reflexivity.
Qed.

(** C5, as the code has it.  [save_wav_file] never raises.  When creating,
    writing or closing the file fails, the manager, its recorded chunks
    included, is left as it was, and for a non-empty buffer the error is
    logged and no success line is printed. *)
Theorem failed_save_keeps_buffer timestamp env m :
  let r := save_wav_file timestamp env m in
  res r = Value tt
  /\ (wave_succeeds env = false ->
      self r = m
      /\ recorded_frames (self r) = recorded_frames m
      /\ (forall filename, ~ In (Print (AudioSavedTo filename)) (trace r))
      /\ (recorded_frames m <> [] ->
          exists e, In (Print (ErrorSavingWav e)) (trace r))).
Proof.
  intros r. subst r. split; [apply save_wav_file_returns |].
  unfold wave_succeeds, save_wav_file, bind, try_except. cbn.
  destruct (recorded_frames m) as [| c frames] eqn:Hfr; cbn.
  - intros _. repeat split; tauto.
  - destruct env as [[[]|msg1] [[]|msg2] [[]|msg3]]; cbn; try discriminate; intros _.
    all: repeat split; try (now rewrite Hfr).
    all: try (intros filename H; cbn in H;
              repeat (destruct H as [H | H]; [discriminate |]); exact H).
    all: intros _; eexists; cbn; eauto 8.
Qed.

Lemma failed_save_keeps_buffer_witness :
  let m := set_recorded_frames [[x01; x02]; [x03]] init in
  let env := mkWave (Failed "disk full") (Ok tt) (Ok tt) in
  let r := save_wav_file "20240101_120000" env m in
  wave_succeeds env = false
  /\ self r = m
  /\ recorded_frames (self r) = [[x01; x02]; [x03]].
Proof.
  split; [reflexivity |].
  pose proof (proj2 (failed_save_keeps_buffer "20240101_120000"
                       (mkWave (Failed "disk full") (Ok tt) (Ok tt))
                       (set_recorded_frames [[x01; x02]; [x03]] init)) eq_refl) as H.
  exact (conj (proj1 H) (proj1 (proj2 H))).
Defined.

(** C5, as stated, fails: when the file cannot be created the recorded
    chunks are still in the buffer after [save_wav_file] returns. *)
Lemma failed_save_does_not_clear_buffer :
  let m := set_recorded_frames [[x01; x02]; [x03]] init in
  let env := mkWave (Failed "disk full") (Ok tt) (Ok tt) in
  let r := save_wav_file "20240101_120000" env m in
  res r = Value tt
  /\ trace r = [Print (ErrorSavingWav (Exception_ "disk full"))]
  /\ recorded_frames (self r) = [[x01; x02]; [x03]]
  /\ recorded_frames (self r) <> [].
Proof.
  cbv zeta. repeat split. discriminate.
Qed.

(** C8.  On an empty buffer, appending [c1] then [c2] and saving, with the
    file system working, writes the frames [c1 ++ c2] to the WAV file and
    leaves the buffer empty; saving again then does nothing at all. *)
Theorem recorded_frames_round_trip c1 c2 timestamp env m :
  recorded_frames m = [] ->
  wave_succeeds env = true ->
  let m2 := after (recorded_frames_append c1 ;; recorded_frames_append c2) m in
  let r := save_wav_file timestamp env m2 in
  let filename := "recorded_audio_" ++ timestamp ++ ".wav" in
  recorded_frames m2 = [c1; c2]
  /\ res r = Value tt
  /\ trace r = [WaveOpened filename; WaveParams 1 2 16000;
                WaveFramesWritten (c1 ++ c2)%list; WaveClosed;
                Print (AudioSavedTo filename)]
  /\ recorded_frames (self r) = []
  /\ (forall timestamp' env',
         save_wav_file timestamp' env' (self r) = mkRun (Value tt) (self r) []).
Proof.
  intros Hm Henv m2 r filename.
  assert (H2 : recorded_frames m2 = [c1; c2]).
  { subst m2. unfold after, recorded_frames_append, bind; cbn. now rewrite Hm. }
  clearbody m2.
  assert (Hr : r = mkRun (Value tt) (set_recorded_frames [] m2)
                     [WaveOpened filename; WaveParams 1 2 16000;
                      WaveFramesWritten (c1 ++ c2)%list; WaveClosed;
                      Print (AudioSavedTo filename)]).
  { subst r. unfold save_wav_file, bind, try_except; cbn. rewrite H2.
    unfold wave_succeeds in Henv.
    destruct env as [[[]|] [[]|] [[]|]]; cbn in *; try discriminate.
    rewrite H2; cbn. now rewrite app_nil_r. }
  rewrite Hr; cbn. split; [exact H2 |]. repeat split.
Qed.

Lemma recorded_frames_round_trip_witness :
  let m2 := after (recorded_frames_append [x01; x02] ;; recorded_frames_append [x03]) init in
  let r := save_wav_file "20240101_120000" (mkWave (Ok tt) (Ok tt) (Ok tt)) m2 in
  recorded_frames m2 = [[x01; x02]; [x03]]
  /\ res r = Value tt
  /\ trace r = [WaveOpened "recorded_audio_20240101_120000.wav"; WaveParams 1 2 16000;
                WaveFramesWritten [x01; x02; x03]; WaveClosed;
                Print (AudioSavedTo "recorded_audio_20240101_120000.wav")]
  /\ recorded_frames (self r) = []
  /\ (forall timestamp' env',
         save_wav_file timestamp' env' (self r) = mkRun (Value tt) (self r) []).
Proof.
  refine (recorded_frames_round_trip [x01; x02] [x03] "20240101_120000"
            (mkWave (Ok tt) (Ok tt) (Ok tt)) init _ _).
  - reflexivity.
  - reflexivity.
Defined.

(** * Starting a session *)

(** [start_transcription] on a manager that is not running, when PyAudio
    loads and the device cannot be opened. *)
Lemma start_transcription_open_fails now env e m :
  is_running m = false ->
  pyaudio_result env = Ok tt ->
  open_result env = Failed e ->
  start_transcription now env m
  = mkRun (Value tt)
      (mkManager (Some PyAudioHandle) (stream m) (ws_app m) (audio_thread m) (ws_thread m)
         false [] "" (VStr "") "" now ("Error micrófono: " ++ e) false)
      [PyAudioCreated].
Proof.
  intros Hrun Hpa Hopen. unfold start_transcription, bind; cbn.
  rewrite Hrun; cbn. rewrite Hpa; cbn. rewrite Hopen; cbn. reflexivity.
Qed.

(** C6.  When the audio device cannot be opened, [start_transcription]
    returns with the microphone error as status and the manager not
    running; it creates and starts no thread and creates no WebSocket
    application. *)
Theorem failed_open_starts_nothing now env e m :
  is_running m = false ->
  pyaudio_result env = Ok tt ->
  open_result env = Failed e ->
  let r := start_transcription now env m in
  res r = Value tt
  /\ status (self r) = "Error micrófono: " ++ e
  /\ is_running (self r) = false
  /\ trace r = [PyAudioCreated]
  /\ (forall target, ~ In (ThreadCreated target) (trace r))
  /\ (forall target, ~ In (ThreadStarted target) (trace r))
  /\ ~ In WebSocketAppCreated (trace r)
  /\ audio_thread (self r) = audio_thread m
  /\ ws_thread (self r) = ws_thread m
  /\ ws_app (self r) = ws_app m
  /\ stream (self r) = stream m.
Proof.
  intros Hrun Hpa Hopen r. subst r.
  rewrite (start_transcription_open_fails now env e m Hrun Hpa Hopen); cbn.
  repeat split; try (intros target [H | []]; discriminate).
  intros [H | []]; discriminate.
Qed.

Lemma failed_open_starts_nothing_witness :
  let r := start_transcription 10.0%float
             (mkStart (Ok tt) (Failed "[Errno -9996] Invalid input device")) init in
  res r = Value tt
  /\ status (self r) = "Error micrófono: [Errno -9996] Invalid input device"
  /\ is_running (self r) = false
  /\ trace r = [PyAudioCreated]
  /\ (forall target, ~ In (ThreadCreated target) (trace r))
  /\ (forall target, ~ In (ThreadStarted target) (trace r))
  /\ ~ In WebSocketAppCreated (trace r)
  /\ audio_thread (self r) = None
  /\ ws_thread (self r) = None
  /\ ws_app (self r) = None
  /\ stream (self r) = None.
Proof.
  refine (failed_open_starts_nothing 10.0%float
            (mkStart (Ok tt) (Failed "[Errno -9996] Invalid input device"))
            "[Errno -9996] Invalid input device" init _ _ _).
  - reflexivity.
  - reflexivity.
  - reflexivity.
Defined.

(** C10.  The same failed start has already thrown the previous session
    away: the committed, partial and shown texts and the recorded chunks are
    empty and the cancellation signal is clear, though the manager is not
    running. *)
Theorem failed_start_discards_transcript now env e m :
  is_running m = false ->
  pyaudio_result env = Ok tt ->
  open_result env = Failed e ->
  let m' := after (start_transcription now env) m in
  committed_text m' = ""
  /\ partial_text m' = VStr ""
  /\ transcript_text m' = ""
  /\ recorded_frames m' = []
  /\ stop_event m' = false
  /\ is_running m' = false
  /\ last_final_time m' = now.
Proof.
  intros Hrun Hpa Hopen m'. subst m'. unfold after.
  rewrite (start_transcription_open_fails now env e m Hrun Hpa Hopen); cbn.
  repeat split.
Qed.

Lemma failed_start_discards_transcript_witness :
  let m' := after (start_transcription 10.0%float
                     (mkStart (Ok tt) (Failed "no device"))) after_a_session in
  (committed_text after_a_session = "hello"
   /\ partial_text after_a_session = VStr "wor"
   /\ transcript_text after_a_session = "hello wor"
   /\ stop_event after_a_session = true)
  /\ committed_text m' = ""
  /\ partial_text m' = VStr ""
  /\ transcript_text m' = ""
  /\ recorded_frames m' = []
  /\ stop_event m' = false
  /\ is_running m' = false
  /\ last_final_time m' = 10.0%float.
Proof.
  split; [repeat split |].
  refine (failed_start_discards_transcript 10.0%float
            (mkStart (Ok tt) (Failed "no device")) "no device" after_a_session _ _ _).
  - reflexivity.
  - reflexivity.
  - reflexivity.
Defined.

(** * Further properties of the session start *)

(** X1.  [start_transcription] on a manager that is already running returns at
    once: nothing is assigned, no call is made, the transcript of the
    running session is kept. *)
Theorem start_when_running_is_noop now env m :
  is_running m = true ->
  start_transcription now env m = mkRun (Value tt) m [].
Proof.
  intros H. unfold start_transcription, bind; cbn. now rewrite H.
Qed.

Lemma start_when_running_is_noop_witness :
  start_transcription 10.0%float (mkStart (Ok tt) (Ok tt)) running_session
  = mkRun (Value tt) running_session [].
Proof.
  refine (start_when_running_is_noop 10.0%float (mkStart (Ok tt) (Ok tt)) running_session _).
  reflexivity.
Defined.



(** X3.  When the PyAudio constructor itself raises, the exception leaves
    [start_transcription]: the manager stays marked as running with the
    connecting status, although nothing was started, and a second start is
    then refused as a start on a running manager. *)
Theorem start_pyaudio_raises now env e m :
  is_running m = false ->
  pyaudio_result env = Failed e ->
  let r := start_transcription now env m in
  res r = Raised (Exception_ e)
  /\ trace r = []
  /\ is_running (self r) = true
  /\ status (self r) = "Iniciando conexión..."
  /\ committed_text (self r) = ""
  /\ (forall now' env',
         start_transcription now' env' (self r) = mkRun (Value tt) (self r) []).
Proof.
  intros Hrun Hpa r. subst r.
  unfold start_transcription at 1. unfold bind; cbn.
  rewrite Hrun; cbn. rewrite Hpa; cbn.
  repeat split.
Qed.

Lemma start_pyaudio_raises_witness :
  let r := start_transcription 10.0%float
             (mkStart (Failed "PortAudio not initialized") (Ok tt)) after_a_session in
  res r = Raised (Exception_ "PortAudio not initialized")
  /\ trace r = []
  /\ is_running (self r) = true
  /\ status (self r) = "Iniciando conexión..."
  /\ committed_text (self r) = ""
  /\ (forall now' env',
         start_transcription now' env' (self r) = mkRun (Value tt) (self r) []).
Proof.
  refine (start_pyaudio_raises 10.0%float
            (mkStart (Failed "PortAudio not initialized") (Ok tt))
            "PortAudio not initialized" after_a_session _ _).
  - reflexivity.
  - reflexivity.
Defined.

(** * Further properties of the message handler *)

(** X4.  A "Begin" message only notes the time: it logs the session id ([None]
    when the payload has none) and assigns [last_final_time], so the pause
    before the next confirmed sentence is measured from the session's
    beginning and not from the previous sentence. *)
Theorem begin_restarts_pause_clock now items now' items' text m :
  Py.get items "type" VNone = VStr "Begin" ->
  Py.get items' "type" VNone = VStr "Turn" ->
  Py.truthy (Py.get items' "turn_is_formatted" (VBool false)) = true ->
  Py.get items' "transcript" (VStr "") = VStr text ->
  text <> "" ->
  let r := on_message now (Decoded (VDict items)) m in
  let m' := after (on_message now' (Decoded (VDict items'))) (self r) in
  res r = Value tt
  /\ trace r = [Print (SessionBegan (Py.get items "id" VNone))]
  /\ self r = set_last_final_time now m
  /\ committed_text m'
     = committed_text m ++ separator (committed_text m) now' now ++ text.
Proof.
  intros Hb Hty Hfin Htr Hne r m'. subst m' r. unfold after.
  rewrite (on_message_begin now items m) by (rewrite Hb; reflexivity). cbn [res self trace].
  rewrite (on_message_final_text now' items' _ Hty text Hfin Htr Hne).
  repeat split.
Qed.

Lemma begin_restarts_pause_clock_witness :
  let m := after (on_message 0%float (turn "hello" true)) init in
  let r := on_message 5.0%float (Decoded (VDict [("type", VStr "Begin")])) m in
  let m' := after (on_message 6.0%float (turn "world" true)) (self r) in
  res r = Value tt
  /\ trace r = [Print (SessionBegan VNone)]
  /\ self r = set_last_final_time 5.0%float m
  /\ committed_text m' = "hello world".
Proof.
  refine (begin_restarts_pause_clock 5.0%float [("type", VStr "Begin")]
            6.0%float (turn_items "world" true) "world"
            (after (on_message 0%float (turn "hello" true)) init) _ _ _ _ _).
  - reflexivity.
  - reflexivity.
  - reflexivity.
  - reflexivity.
  - discriminate.
Defined.

(** What [on_message] makes of a Turn with a string transcript does not
    depend on the draft or the shown text it finds. *)
Lemma on_message_turn_forgets_draft now items m partial shown :
  Py.get items "type" VNone = VStr "Turn" ->
  Py.is_str (Py.get items "transcript" (VStr "")) = true ->
  on_message now (Decoded (VDict items)) (set_transcript_text shown (set_partial_text partial m))
  = on_message now (Decoded (VDict items)) m.
Proof.
  intros Hty Hstr. destruct (is_str_true _ Hstr) as [text Htext].
  destruct (Py.truthy (Py.get items "turn_is_formatted" (VBool false))) eqn:HF.
  - destruct (String.eqb text "") eqn:Etext.
    + rewrite !(on_message_final_falsy now items _ Hty HF)
        by (rewrite Htext; cbn; now rewrite Etext).
      reflexivity.
    + apply String.eqb_neq in Etext.
      rewrite !(on_message_final_text now items _ Hty text HF Htext Etext).
      reflexivity.
  - rewrite !(on_message_partial_text now items _ Hty text HF Htext). reflexivity.
Qed.

(** X5.  A draft is replaced, never accumulated: after any unconfirmed Turn,
    whatever its transcript, the next Turn with a string transcript leaves
    the manager exactly as if the draft had never arrived. *)
Theorem draft_is_overwritten now1 items1 now2 items2 m :
  Py.get items1 "type" VNone = VStr "Turn" ->
  Py.truthy (Py.get items1 "turn_is_formatted" (VBool false)) = false ->
  Py.get items2 "type" VNone = VStr "Turn" ->
  Py.is_str (Py.get items2 "transcript" (VStr "")) = true ->
  on_message now2 (Decoded (VDict items2))
    (after (on_message now1 (Decoded (VDict items1))) m)
  = on_message now2 (Decoded (VDict items2)) m.
Proof.
  intros Hty1 Hfin1 Hty2 Hstr2. unfold after.
  destruct (Py.is_str (Py.get items1 "transcript" (VStr ""))) eqn:Hstr1.
  - destruct (is_str_true _ Hstr1) as [text1 Htext1].
    rewrite (on_message_partial_text now1 items1 m Hty1 text1 Hfin1 Htext1). cbn [self].
    now apply on_message_turn_forgets_draft.
  - rewrite (on_message_partial_not_str now1 items1 m Hty1 Hfin1 Hstr1). cbn [self].
    exact (on_message_turn_forgets_draft now2 items2 m
             (Py.get items1 "transcript" (VStr "")) (transcript_text m) Hty2 Hstr2).
Qed.

Lemma draft_is_overwritten_witness :
  let m := after (on_message 0%float (turn "hello" true)) init in
  on_message 2.0%float (turn "world" false) (after (on_message 1.0%float (turn "wor" false)) m)
  = on_message 2.0%float (turn "world" false) m.
Proof.
  refine (draft_is_overwritten 1.0%float (turn_items "wor" false)
            2.0%float (turn_items "world" false)
            (after (on_message 0%float (turn "hello" true)) init) _ _ _ _).
  - reflexivity.
  - reflexivity.
  - reflexivity.
  - reflexivity.
Defined.


Lemma on_message_keeps_consistent now message m :
  stores_bad_draft message = false ->
  shown_text_consistent m ->
  shown_text_consistent (after (on_message now message) m).
Proof.
  unfold after. intros Hbad Hm.
  destruct message as [data | msg]; [| exact Hm].
  destruct data as [ | b | z | f | s | l | items]; try exact Hm.
  destruct (Py.eq_str (Py.get items "type" VNone) "Begin") eqn:HB.
  { rewrite (on_message_begin now items m HB). exact Hm. }
  destruct (Py.eq_str (Py.get items "type" VNone) "Turn") eqn:HT.
  2:{ rewrite (on_message_other now items m HB HT). exact Hm. }
  cbn in Hbad. rewrite HT in Hbad. apply eq_str_true in HT.
  destruct (Py.truthy (Py.get items "turn_is_formatted" (VBool false))) eqn:HF;
    destruct (Py.is_str (Py.get items "transcript" (VStr ""))) eqn:HS;
    try discriminate.
  - destruct (is_str_true _ HS) as [text Htext].
    destruct (String.eqb text "") eqn:Etext.
    + rewrite (on_message_final_falsy now items m HT HF)
        by (rewrite Htext; cbn; now rewrite Etext).
      exists "". cbn. now rewrite displayText_no_partial.
    + apply String.eqb_neq in Etext.
      rewrite (on_message_final_text now items m HT text HF Htext Etext).
      exists "". cbn. now rewrite displayText_no_partial.
  - destruct (Py.truthy (Py.get items "transcript" (VStr ""))) eqn:HTr.
    + rewrite (on_message_final_not_str now items m HT HF HTr HS). exact Hm.
    + rewrite (on_message_final_falsy now items m HT HF HTr).
      exists "". cbn. now rewrite displayText_no_partial.
  - destruct (is_str_true _ HS) as [text Htext].
    rewrite (on_message_partial_text now items m HT text HF Htext).
    exists text. cbn. split; reflexivity.
Qed.

(** X6.  The shown text agrees with the committed text and the draft on a
    fresh manager and after every start, and [on_message] keeps it so for
    every message but one kind: an unconfirmed Turn whose transcript is not
    a string, which leaves a draft that is not text. *)
Theorem shown_text_stays_consistent :
  shown_text_consistent init
  /\ (forall now env m,
         is_running m = false ->
         shown_text_consistent (after (start_transcription now env) m))
  /\ (forall now message m,
         shown_text_consistent m ->
         (shown_text_consistent (after (on_message now message) m)
          <-> stores_bad_draft message = false)).
Proof.
  split; [| split].
  - exists "". split; reflexivity.
  - intros now env m H. unfold after, start_transcription, bind; cbn.
    rewrite H; cbn.
    destruct env as [[[]|] [[]|]]; cbn; exists ""; split; reflexivity.
  - intros now message m Hm. split.
    + intros [partial [Hp _]].
      destruct (stores_bad_draft message) eqn:Hbad; [exfalso | reflexivity].
      destruct message as [data | msg]; try discriminate.
      destruct data; try discriminate. cbn in Hbad.
      apply andb_prop in Hbad. destruct Hbad as [Hbad HS].
      apply andb_prop in Hbad. destruct Hbad as [HT HF].
      apply negb_true_iff in HS, HF. apply eq_str_true in HT.
      unfold after in Hp.
      rewrite (on_message_partial_not_str now items m HT HF HS) in Hp. cbn in Hp.
      rewrite Hp in HS. discriminate.
    + intros Hbad. now apply on_message_keeps_consistent.
Qed.

Lemma shown_text_stays_consistent_witness :
  let m := after (on_message 0%float (turn "hello" true)) init in
  shown_text_consistent m
  /\ (shown_text_consistent (after (on_message 1.0%float (turn "wor" false)) m)
      <-> stores_bad_draft (turn "wor" false) = false).
Proof.
  assert (H : shown_text_consistent (after (on_message 0%float (turn "hello" true)) init)).
  { exists "". split; reflexivity. }
  split; [exact H |].
  exact (proj2 (proj2 shown_text_stays_consistent) 1.0%float (turn "wor" false) _ H).
Defined.




(** * The capture loop *)

Lemma sent_chunks_app t1 t2 : sent_chunks (t1 ++ t2) = (sent_chunks t1 ++ sent_chunks t2)%list.
Proof. unfold sent_chunks. apply flat_map_app. Qed.


Lemma stream_audio_loop_step env rest m :
  stop_event m = false ->
  stream_audio_loop (env :: rest) m
  = match stream_audio_iter env m with
    | mkRun (Value Continue) m1 t1 =>
        match stream_audio_loop rest m1 with
        | mkRun r m2 t2 => mkRun r m2 (t1 ++ t2)
        end
    | mkRun (Value Break) m1 t1 => mkRun (Value tt) m1 (t1 ++ [Print AudioStreamingStopped])
    | mkRun (Raised e) m1 t1 => mkRun (Raised e) m1 t1
    end.
Proof.
  intros H. cbn [stream_audio_loop]. unfold bind. cbn [get]. rewrite H.
  destruct (stream_audio_iter env m) as [[[] | e] m1 t1]; cbn; try reflexivity.
  destruct (stream_audio_loop rest m1); reflexivity.
Qed.

Lemma stream_audio_loop_stopped envs m :
  stop_event m = true ->
  stream_audio_loop envs m = mkRun (Value tt) m [Print AudioStreamingStopped].
Proof.
  intros H. destruct envs; cbn [stream_audio_loop]; unfold bind; cbn; now rewrite H.
Qed.


(** With the stream open and the loop not cancelled, a run in which every
    read and every send succeeds records and sends exactly the chunks it
    read, in order. *)
Lemma capture_ok_script chunks : forall m,
  stream m <> None ->
  stop_event m = false ->
  let r := stream_audio_loop (ok_script chunks) m in
  res r = Value tt
  /\ self r = match chunks with
              | [] => m
              | _ :: _ => set_recorded_frames (recorded_frames m ++ chunks) m
              end
  /\ sent_chunks (trace r) = chunks.
Proof.
  induction chunks as [| c rest IH]; intros m Hs Hstop; cbv zeta.
  - cbn. unfold bind; cbn. rewrite Hstop. repeat split.
  - cbn [ok_script map]. rewrite (stream_audio_loop_step _ _ m Hstop).
    unfold stream_audio_iter, bind, try_except; cbn.
    destruct (stream m) eqn:E; [| now elim Hs]. cbn.
    specialize (IH (set_recorded_frames (recorded_frames m ++ [c]) m)). cbv zeta in IH.
    cbn in IH. rewrite E in IH. specialize (IH ltac:(discriminate) Hstop).
    fold (ok_script rest).
    destruct (stream_audio_loop (ok_script rest) _) as [r m2 t2]. cbn in *.
    destruct IH as (Hr & Hm2 & Hsent). repeat split.
    + exact Hr.
    + rewrite Hm2. destruct rest; cbn; [reflexivity |].
      now rewrite <- app_assoc.
    + now rewrite Hsent.
Qed.

Lemma save_wav_file_success timestamp env m :
  recorded_frames m <> [] ->
  wave_succeeds env = true ->
  let filename := "recorded_audio_" ++ timestamp ++ ".wav" in
  save_wav_file timestamp env m
  = mkRun (Value tt) (set_recorded_frames [] m)
      [WaveOpened filename; WaveParams CHANNELS 2 SAMPLE_RATE;
       WaveFramesWritten (concat (recorded_frames m)); WaveClosed;
       Print (AudioSavedTo filename)].
Proof.
  intros Hne Henv filename. unfold save_wav_file, bind, try_except; cbn.
  destruct (recorded_frames m) eqn:Hfr; [now elim Hne |].
  unfold wave_succeeds in Henv.
  destruct env as [[[]|] [[]|] [[]|]]; cbn in *; try discriminate.
  now rewrite Hfr.
Qed.

Lemma on_close_unfold timestamp env m :
  on_close timestamp env m
  = match save_wav_file timestamp env m with
    | mkRun (Value _) m1 t1 =>
        mkRun (Value tt)
          (set_status "Desconectado. Archivo guardado." (set_is_running false m1))
          (Print WebSocketDisconnected :: t1 ++ [])
    | mkRun (Raised e) m1 t1 => mkRun (Raised e) m1 (Print WebSocketDisconnected :: t1)
    end.
Proof.
  unfold on_close, bind, print, emit, assign.
  destruct (save_wav_file timestamp env m) as [[[] | e] m1 t1]; reflexivity.
Qed.

(** X9.  A capture in which every read and send succeeds, followed by the
    closing of the connection with the file system working: the chunks
    sent to the service are, in order and without loss, the frames written
    to the WAV file; the buffer is then empty and the manager not
    running. *)
Theorem captured_audio_is_saved chunks timestamp env m :
  stream m <> None ->
  stop_event m = false ->
  recorded_frames m = [] ->
  chunks <> [] ->
  wave_succeeds env = true ->
  let r1 := stream_audio_loop (ok_script chunks) m in
  let r2 := on_close timestamp env (self r1) in
  let filename := "recorded_audio_" ++ timestamp ++ ".wav" in
  sent_chunks (trace r1) = chunks
  /\ recorded_frames (self r1) = chunks
  /\ res r2 = Value tt
  /\ trace r2 = [Print WebSocketDisconnected; WaveOpened filename; WaveParams 1 2 16000;
                 WaveFramesWritten (concat (sent_chunks (trace r1))); WaveClosed;
                 Print (AudioSavedTo filename)]
  /\ recorded_frames (self r2) = []
  /\ is_running (self r2) = false.
Proof.
  intros Hs Hstop Hfr Hne Henv r1 r2 filename.
  destruct (capture_ok_script chunks m Hs Hstop) as (_ & Hself & Hsent).
  fold r1 in Hself, Hsent.
  assert (Hrec : recorded_frames (self r1) = chunks).
  { rewrite Hself. destruct chunks; [now elim Hne |]. cbn. now rewrite Hfr. }
  subst r2. clearbody r1. rewrite on_close_unfold.
  rewrite (save_wav_file_success timestamp env (self r1))
    by first [rewrite Hrec; exact Hne | exact Henv].
  cbn. rewrite Hsent, Hrec. repeat split.
Qed.

Lemma captured_audio_is_saved_witness :
  let r1 := stream_audio_loop (ok_script [[x01; x02]; [x03]]) streaming_session in
  let r2 := on_close "20240101_120000" (mkWave (Ok tt) (Ok tt) (Ok tt)) (self r1) in
  sent_chunks (trace r1) = [[x01; x02]; [x03]]
  /\ recorded_frames (self r1) = [[x01; x02]; [x03]]
  /\ res r2 = Value tt
  /\ trace r2 = [Print WebSocketDisconnected;
                 WaveOpened "recorded_audio_20240101_120000.wav"; WaveParams 1 2 16000;
                 WaveFramesWritten [x01; x02; x03]; WaveClosed;
                 Print (AudioSavedTo "recorded_audio_20240101_120000.wav")]
  /\ recorded_frames (self r2) = []
  /\ is_running (self r2) = false.
Proof.
  refine (captured_audio_is_saved [[x01; x02]; [x03]] "20240101_120000"
            (mkWave (Ok tt) (Ok tt) (Ok tt)) streaming_session _ _ _ _ _).
  - discriminate.
  - reflexivity.
  - reflexivity.
  - discriminate.
  - reflexivity.
Defined.

(** * Closing and errors of the connection *)

(** X10.  [on_close] never raises and always ends not running with the status
    "Desconectado. Archivo guardado.", whether or not a file was written:
    with nothing recorded no file is opened at all, and when saving fails
    the chunks stay in the buffer under that same status.  The transcript
    is not touched. *)
Theorem on_close_always_reports_saved timestamp env m :
  let r := on_close timestamp env m in
  res r = Value tt
  /\ is_running (self r) = false
  /\ status (self r) = "Desconectado. Archivo guardado."
  /\ committed_text (self r) = committed_text m
  /\ partial_text (self r) = partial_text m
  /\ transcript_text (self r) = transcript_text m
  /\ (recorded_frames m = [] -> trace r = [Print WebSocketDisconnected])
  /\ (wave_succeeds env = false ->
      recorded_frames (self r) = recorded_frames m
      /\ forall filename, ~ In (Print (AudioSavedTo filename)) (trace r)).
Proof.
  intros r. subst r. unfold on_close, save_wav_file, bind, try_except, wave_succeeds; cbn.
  destruct (recorded_frames m) as [| c frames] eqn:Hfr; cbn;
    [| destruct env as [[[]|e1] [[]|e2] [[]|e3]]; cbn].
  all: repeat split; unfold not; intros; repeat split; unfold not; intros;
    try reflexivity; try discriminate; try (now rewrite Hfr).
  all: repeat match goal with H : _ \/ _ |- _ => destruct H end;
    try discriminate; contradiction.
Qed.

Lemma on_close_always_reports_saved_witness :
  let m := set_recorded_frames [[x01; x02]; [x03]] streaming_session in
  let r := on_close "20240101_120000" (mkWave (Failed "disk full") (Ok tt) (Ok tt)) m in
  status (self r) = "Desconectado. Archivo guardado."
  /\ recorded_frames (self r) = [[x01; x02]; [x03]]
  /\ forall filename, ~ In (Print (AudioSavedTo filename)) (trace r).
Proof.
  pose proof (on_close_always_reports_saved "20240101_120000"
                (mkWave (Failed "disk full") (Ok tt) (Ok tt))
                (set_recorded_frames [[x01; x02]; [x03]] streaming_session)) as H.
  cbv zeta in H.
  destruct H as (_ & _ & Hst & _ & _ & _ & _ & Hfail).
  exact (conj Hst (Hfail eq_refl)).
Defined.

(** X11.  [on_error] puts the error into the status and sets the cancellation
    signal, and leaves the manager marked as it was, running or not; the
    capture loop, whenever it next tests the signal, stops without reading
    or recording anything more. *)
Theorem error_stops_capture error envs m :
  let m1 := after (on_error error) m in
  status m1 = "Error: " ++ error
  /\ stop_event m1 = true
  /\ is_running m1 = is_running m
  /\ recorded_frames m1 = recorded_frames m
  /\ transcript_text m1 = transcript_text m
  /\ stream_audio_loop envs m1 = mkRun (Value tt) m1 [Print AudioStreamingStopped].
Proof.
  intros m1. subst m1. unfold after, on_error, bind; cbn.
  repeat split. now apply stream_audio_loop_stopped.
Qed.

(** * Stopping *)

(** ** What every step of a stop keeps *)

Section Keeps.

Variable R : TranscriptionManager -> TranscriptionManager -> Prop.
Hypothesis R_refl : forall m, R m m.
Hypothesis R_trans : forall m1 m2 m3, R m1 m2 -> R m2 m3 -> R m1 m3.

Lemma keeps_pass : s_keeps R s_pass.
Proof. intros m. apply R_refl. Qed.

Lemma keeps_raise e : s_keeps R (s_raise e).
Proof. intros m. apply R_refl. Qed.

Lemma keeps_emit c : s_keeps R (s_emit c).
Proof. intros m. apply R_refl. Qed.

Lemma keeps_call o c : s_keeps R (s_call o c).
Proof. intros m. destruct o as [[] | e]; apply R_refl. Qed.

Lemma keeps_assign f : (forall m, R m (f m)) -> s_keeps R (s_assign f).
Proof. intros H m. apply H. Qed.

Lemma keeps_seq c k : s_keeps R c -> s_keeps R k -> s_keeps R (c >>> k).
Proof.
  intros Hc Hk m. unfold s_seq.
  specialize (Hc m). destruct (c m) as [[[] | e] m1 t1]; cbn in *; [| exact Hc].
  specialize (Hk m1). destruct (k m1) as [r m2 t2]; cbn in *.
  now apply R_trans with m1.
Qed.

Lemma keeps_send_terminate env : s_keeps R (send_terminate env).
Proof.
  intros m. unfold send_terminate.
  destruct (ws_app m); [| apply R_refl].
  destruct (sock_connected env); [| apply R_refl].
  destruct (send_terminate_result env); apply R_refl.
Qed.

Lemma keeps_close_websocket env : s_keeps R (close_websocket env).
Proof.
  intros m. unfold close_websocket.
  destruct (ws_app m); [apply keeps_call | apply R_refl].
Qed.

Lemma keeps_cleanup_stream env :
  (forall m, R m (set_stream None m)) -> s_keeps R (cleanup_stream env).
Proof.
  intros H m. unfold cleanup_stream.
  destruct (stream m); [| apply R_refl].
  revert m. apply keeps_seq; [| apply keeps_seq; [apply keeps_call | now apply keeps_assign]].
  destruct (is_active_result env) as [[] | e];
    [apply keeps_call | apply keeps_pass | apply keeps_raise].
Qed.

Lemma keeps_cleanup_audio env :
  (forall m, R m (set_audio None m)) -> s_keeps R (cleanup_audio env).
Proof.
  intros H m. unfold cleanup_audio.
  destruct (audio m); [| apply R_refl].
  revert m. apply keeps_seq; [apply keeps_call | now apply keeps_assign].
Qed.

End Keeps.

Lemma stop_frame_refl m : stop_frame m m.
Proof. repeat split. tauto. Qed.

Lemma stop_frame_trans m1 m2 m3 : stop_frame m1 m2 -> stop_frame m2 m3 -> stop_frame m1 m3.
Proof.
  unfold stop_frame.
  intros (A1 & A2 & A3 & A4 & A5 & A6 & A7 & A8 & A9) (B1 & B2 & B3 & B4 & B5 & B6 & B7 & B8 & B9).
  repeat split; try congruence. tauto.
Qed.

Lemma stop_transcription_frame env : s_keeps stop_frame (stop_transcription env).
Proof.
  intros m. unfold stop_transcription.
  destruct (negb (is_running m)); [apply stop_frame_refl |].
  revert m.
  repeat (apply (keeps_seq _ stop_frame_trans);
          [first [ apply keeps_assign; intros m; repeat split; tauto
                 | apply (keeps_send_terminate _ stop_frame_refl)
                 | apply (keeps_close_websocket _ stop_frame_refl)
                 | apply (keeps_cleanup_stream _ stop_frame_refl stop_frame_trans);
                   intros m; repeat split; tauto
                 | apply (keeps_cleanup_audio _ stop_frame_refl stop_frame_trans);
                   intros m; repeat split; tauto ] |]).
  apply keeps_assign; intros m; repeat split; tauto.
Qed.

Lemma s_seq_assign f k m : (s_assign f >>> k) m = k (f m).
Proof.
  unfold s_seq, s_assign. destruct (k (f m)); reflexivity.
Qed.

(** X12.  [stop_transcription] on a manager that is not running, a fresh one for
    instance, does nothing: no attribute is assigned and no call is made
    on the socket, the stream or PyAudio. *)
Theorem stop_when_not_running_is_noop env m :
  is_running m = false ->
  stop_transcription env m = mkStopRun (Value tt) m [].
Proof.
  intros H. unfold stop_transcription. now rewrite H.
Qed.

Lemma stop_when_not_running_is_noop_witness :
  stop_transcription
    (mkStop true (Ok tt) (Ok tt) (Ok true) (Ok tt) (Ok tt) (Ok tt)) init
  = mkStopRun (Value tt) init [].
Proof.
  refine (stop_when_not_running_is_noop
            (mkStop true (Ok tt) (Ok tt) (Ok true) (Ok tt) (Ok tt) (Ok tt)) init _).
  reflexivity.
Defined.

Lemma stop_transcription_restart env m :
  is_running m = true ->
  stop_transcription env m
  = stop_transcription env (set_stop_event true (set_status "Deteniendo..." m)).
Proof.
  intros H. unfold stop_transcription. cbn [is_running set_stop_event set_status].
  rewrite H. cbn [negb]. rewrite !s_seq_assign. reflexivity.
Qed.

(** X13.  Whatever the socket, the stream and PyAudio answer, and whether or not
    an exception leaves it, [stop_transcription] keeps the transcript, the
    pause clock, the recorded chunks, the WebSocket application and the
    threads; and on a running manager the cancellation signal is set by
    the time it returns or raises, so that the capture loop stops at its
    next test without reading again. *)
Theorem stop_keeps_transcript_and_cancels env m :
  let r := stop_transcription env m in
  committed_text (stop_self r) = committed_text m
  /\ partial_text (stop_self r) = partial_text m
  /\ transcript_text (stop_self r) = transcript_text m
  /\ last_final_time (stop_self r) = last_final_time m
  /\ recorded_frames (stop_self r) = recorded_frames m
  /\ ws_app (stop_self r) = ws_app m
  /\ ws_thread (stop_self r) = ws_thread m
  /\ audio_thread (stop_self r) = audio_thread m
  /\ (is_running m = true ->
      stop_event (stop_self r) = true
      /\ forall envs,
           stream_audio_loop envs (stop_self r)
           = mkRun (Value tt) (stop_self r) [Print AudioStreamingStopped]).
Proof.
  intros r. subst r.
  destruct (stop_transcription_frame env m) as (H1 & H2 & H3 & H4 & H5 & H6 & H7 & H8 & _).
  repeat split; try assumption.
  - rewrite (stop_transcription_restart env m H).
    now apply (stop_transcription_frame env
                 (set_stop_event true (set_status "Deteniendo..." m))).
  - intros envs. apply stream_audio_loop_stopped.
    rewrite (stop_transcription_restart env m H).
    now apply (stop_transcription_frame env
                 (set_stop_event true (set_status "Deteniendo..." m))).
Qed.

(** X14.  A stop in which nothing raises after the Terminate message: the
    manager ends not running with the stream and PyAudio released; the
    socket is closed before the stream, the stream is stopped only if it
    is active, and PyAudio is terminated last.  The Terminate message is
    sent only over a connected socket, and a failure to send it is logged
    without holding anything up.  A second stop then does nothing. *)
Theorem stop_releases_everything env active m :
  is_running m = true ->
  ws_close_result env = Ok tt ->
  is_active_result env = Ok active ->
  stop_stream_result env = Ok tt ->
  stream_close_result env = Ok tt ->
  terminate_result env = Ok tt ->
  let r := stop_transcription env m in
  stop_res r = Value tt
  /\ is_running (stop_self r) = false
  /\ stop_event (stop_self r) = true
  /\ status (stop_self r) = "Deteniendo..."
  /\ stream (stop_self r) = None
  /\ audio (stop_self r) = None
  /\ stop_calls r
     = (match ws_app m with
        | Some _ =>
            (if sock_connected env then
               match send_terminate_result env with
               | Ok _ => [WsSendJson terminate_message]
               | Failed e => [PrintErrorSendingTermination (Exception_ e)]
               end
             else []) ++ [WsClosed]
        | None => []
        end
        ++ match stream m with
           | Some _ => (if active then [StreamStopped] else []) ++ [StreamClosed]
           | None => []
           end
        ++ match audio m with
           | Some _ => [PyAudioTerminated]
           | None => []
           end)%list
  /\ (forall env', stop_transcription env' (stop_self r) = mkStopRun (Value tt) (stop_self r) []).
Proof.
  intros Hrun Hc Ha Hs Hsc Ht r.
  assert (Er : r = stop_transcription env m) by reflexivity. clearbody r.
  unfold stop_transcription in Er. rewrite Hrun in Er. cbn [negb] in Er.
  unfold send_terminate, close_websocket, cleanup_stream, cleanup_audio in Er.
  unfold s_seq, s_call, s_assign, s_emit, s_pass, s_raise in Er. cbn in Er.
  rewrite Hc, Ha, Hs, Hsc, Ht in Er.
  destruct (ws_app m) eqn:Hw, (stream m) eqn:Hst, (audio m) eqn:Hau, (sock_connected env),
    (send_terminate_result env) as [[] | e], active; cbn in Er;
    rewrite ?Hw in Er; cbn in Er; rewrite ?Hst in Er; cbn in Er;
    rewrite ?Hau in Er; cbn in Er; subst r; cbn; repeat split; assumption.
Qed.

Lemma stop_releases_everything_witness :
  let env := mkStop true (Failed "socket is already closed") (Ok tt) (Ok true)
               (Ok tt) (Ok tt) (Ok tt) in
  let r := stop_transcription env live_session in
  stop_res r = Value tt
  /\ is_running (stop_self r) = false
  /\ stop_event (stop_self r) = true
  /\ status (stop_self r) = "Deteniendo..."
  /\ stream (stop_self r) = None
  /\ audio (stop_self r) = None
  /\ stop_calls r
     = [PrintErrorSendingTermination (Exception_ "socket is already closed");
        WsClosed; StreamStopped; StreamClosed; PyAudioTerminated]
  /\ (forall env', stop_transcription env' (stop_self r) = mkStopRun (Value tt) (stop_self r) []).
Proof.
  refine (stop_releases_everything
            (mkStop true (Failed "socket is already closed") (Ok tt) (Ok true)
               (Ok tt) (Ok tt) (Ok tt)) true live_session _ _ _ _ _ _).
  all: reflexivity.
Defined.

(** ** When a stop is cut short *)

Lemma same_running_refl m : same_running m m.
Proof. reflexivity. Qed.

Lemma same_running_trans m1 m2 m3 :
  same_running m1 m2 -> same_running m2 m3 -> same_running m1 m3.
Proof. unfold same_running. congruence. Qed.

Lemma marks_seq c k : s_keeps same_running c -> s_marks k -> s_marks (c >>> k).
Proof.
  intros Hc Hk m Hm. unfold s_seq.
  specialize (Hc m). unfold same_running in Hc.
  destruct (c m) as [[[] | e] m1 t1]; cbn in *.
  - rewrite Hm in Hc. specialize (Hk m1 Hc).
    destruct (k m1) as [r m2 t2]; cbn in *. exact Hk.
  - right. split; [now exists e | congruence].
Qed.

Lemma stop_transcription_marks env : s_marks (stop_transcription env).
Proof.
  intros m Hm. unfold stop_transcription. rewrite Hm. cbn [negb].
  revert m Hm. fold (s_marks
    (s_assign (set_status "Deteniendo...") >>>
     s_assign (set_stop_event true) >>>
     send_terminate env >>> close_websocket env >>>
     cleanup_stream env >>> cleanup_audio env >>>
     s_assign (set_is_running false))).
  repeat (apply marks_seq;
          [first [ apply keeps_assign; intros m; reflexivity
                 | apply (keeps_send_terminate _ same_running_refl)
                 | apply (keeps_close_websocket _ same_running_refl)
                 | apply (keeps_cleanup_stream _ same_running_refl same_running_trans);
                   intros m; reflexivity
                 | apply (keeps_cleanup_audio _ same_running_refl same_running_trans);
                   intros m; reflexivity ] |]).
  intros m Hm. left. split; reflexivity.
Qed.

(** X15.  Only the sending of the Terminate message is guarded.  On a running
    manager, [stop_transcription] marks the manager as not running exactly
    when it runs to its end; if a later call raises, the exception leaves
    it and the manager stays marked as running, with the stopping status
    and the cancellation signal set. *)
Theorem stop_marks_stopped_iff_completed env m :
  is_running m = true ->
  let r := stop_transcription env m in
  (stop_res r = Value tt <-> is_running (stop_self r) = false)
  /\ (forall e,
         stop_res r = Raised e ->
         is_running (stop_self r) = true
         /\ stop_event (stop_self r) = true).
Proof.
  intros Hm r.
  destruct (stop_transcription_marks env m Hm) as [[Hr Hrun] | [[e He] Hrun]]; fold r in Hr || fold r in He; fold r in Hrun.
  - split; [tauto |]. intros e He. rewrite Hr in He. discriminate.
  - split.
    + rewrite He, Hrun. split; discriminate.
    + intros e' _. split; [exact Hrun |].
      subst r. rewrite (stop_transcription_restart env m Hm).
      now apply (stop_transcription_frame env
                   (set_stop_event true (set_status "Deteniendo..." m))).
Qed.

Lemma stop_marks_stopped_iff_completed_witness :
  let env := mkStop true (Ok tt) (Failed "close failed") (Ok true) (Ok tt) (Ok tt) (Ok tt) in
  let r := stop_transcription env live_session in
  stop_res r = Raised (Exception_ "close failed")
  /\ is_running (stop_self r) = true
  /\ stop_event (stop_self r) = true.
Proof.
  split; [reflexivity |].
  refine (proj2 (stop_marks_stopped_iff_completed
                   (mkStop true (Ok tt) (Failed "close failed") (Ok true) (Ok tt) (Ok tt) (Ok tt))
                   live_session _) (Exception_ "close failed") _).
  - reflexivity.
  - reflexivity.
Defined.

(** X16.  When closing the socket raises, the stop ends there: neither the
    stream nor PyAudio is released, so the microphone stays open. *)
Theorem stop_socket_close_raises env e m :
  is_running m = true ->
  ws_app m <> None ->
  ws_close_result env = Failed e ->
  let r := stop_transcription env m in
  stop_res r = Raised (Exception_ e)
  /\ stream (stop_self r) = stream m
  /\ audio (stop_self r) = audio m
  /\ (forall c, In c (stop_calls r) ->
        c = WsSendJson terminate_message
        \/ exists e', c = PrintErrorSendingTermination e').
Proof.
  intros Hrun Hw Hc r.
  assert (Er : r = stop_transcription env m) by reflexivity. clearbody r.
  unfold stop_transcription in Er. rewrite Hrun in Er. cbn [negb] in Er.
  unfold send_terminate, close_websocket, cleanup_stream, cleanup_audio in Er.
  unfold s_seq, s_call, s_assign, s_emit, s_pass, s_raise in Er. cbn in Er.
  rewrite Hc in Er.
  destruct (ws_app m) eqn:Hws; [| now elim Hw].
  destruct (sock_connected env), (send_terminate_result env) as [[] | e1];
    cbn in Er; rewrite ?Hws in Er; cbn in Er; subst r; cbn; repeat split;
    intros c Hin; cbn in Hin;
    repeat match goal with H : _ \/ _ |- _ => destruct H end;
    try contradiction; subst c; eauto.
Qed.

Lemma stop_socket_close_raises_witness :
  let env := mkStop true (Ok tt) (Failed "close failed") (Ok true) (Ok tt) (Ok tt) (Ok tt) in
  let r := stop_transcription env live_session in
  stop_res r = Raised (Exception_ "close failed")
  /\ stream (stop_self r) = Some StreamHandle
  /\ audio (stop_self r) = Some PyAudioHandle
  /\ (forall c, In c (stop_calls r) ->
        c = WsSendJson terminate_message
        \/ exists e', c = PrintErrorSendingTermination e').
Proof.
  refine (stop_socket_close_raises
            (mkStop true (Ok tt) (Failed "close failed") (Ok true) (Ok tt) (Ok tt) (Ok tt))
            "close failed" live_session _ _ _).
  - reflexivity.
  - discriminate.
  - reflexivity.
Defined.

Lemma stop_keeps_transcript_and_cancels_witness :
  let env := mkStop true (Ok tt) (Failed "close failed") (Ok true) (Ok tt) (Ok tt) (Ok tt) in
  let r := stop_transcription env live_session in
  committed_text (stop_self r) = "hello"
  /\ transcript_text (stop_self r) = "hello wor"
  /\ recorded_frames (stop_self r) = [[x01; x02]; [x03]]
  /\ stop_event (stop_self r) = true
  /\ forall envs,
       stream_audio_loop envs (stop_self r)
       = mkRun (Value tt) (stop_self r) [Print AudioStreamingStopped].
Proof.
  pose proof (stop_keeps_transcript_and_cancels
                (mkStop true (Ok tt) (Failed "close failed") (Ok true) (Ok tt) (Ok tt) (Ok tt))
                live_session) as H.
  cbv zeta in H.
  destruct H as (H1 & _ & H3 & _ & H5 & _ & _ & _ & H9).
  exact (conj H1 (conj H3 (conj H5 (H9 eq_refl)))).
Defined.
